(** * Student dashboard: roster store, filters, statistics and chart data

    A shallow embedding of the two revisions of
    [student-dashboard.component.ts] and the properties of their data
    pipeline.  The revision that carries a [uid] per student is called
    [Rich], the one without is called [Simple].  Everything the two
    revisions share textually is written once, over the interface
    [Variant], and instantiated twice. *)

From Stdlib Require Import ZArith String Ascii List Bool Lia.
From stdpp Require Import base decidable option list strings gmap.

Local Open Scope string_scope.
Local Open Scope Z_scope.

(** ** Platform strings

    The few methods of [String.prototype] and [Number.prototype] that
    [makeUID] calls, on the byte strings of the Standard Library.  They are
    exact on the ASCII texts the component feeds them (base-36 numerals). *)

Module Js.

(** [s.slice(start, end)]: negative indices count from the end, both are
    clamped to the string, an empty result when they cross. *)
Definition clamp_index (len i : Z) : Z :=
  if i <? 0 then Z.max (len + i) 0 else Z.min i len.

Definition slice (s : string) (start : Z) (end_ : option Z) : string :=
  let len := Z.of_nat (String.length s) in
  let from := clamp_index len start in
  let to := match end_ with Some e => clamp_index len e | None => len end in
  substring (Z.to_nat from) (Z.to_nat (Z.max (to - from) 0)) s.

(** [s.toUpperCase()] on ASCII. *)
Definition upper_ascii (c : ascii) : ascii :=
  let n := nat_of_ascii c in
  if ((97 <=? n) && (n <=? 122))%nat then ascii_of_nat (n - 32) else c.

Fixpoint toUpperCase (s : string) : string :=
  match s with
  | EmptyString => EmptyString
  | String c r => String (upper_ascii c) (toUpperCase r)
  end.

(** [n.toString(radix)] for an integer [n] and a radix up to 36. *)
Definition digit (d : Z) : ascii :=
  nth (Z.to_nat d)
      (list_ascii_of_string "0123456789abcdefghijklmnopqrstuvwxyz") "0"%char.

Fixpoint digits (radix : Z) (fuel : nat) (n : Z) (acc : string) : string :=
  match fuel with
  | O => acc
  | S fuel' =>
      let acc' := String (digit (n mod radix)) acc in
      if n / radix =? 0 then acc' else digits radix fuel' (n / radix) acc'
  end.

Definition toString (radix : Z) (n : Z) : string :=
  let body := digits radix (S (Z.to_nat (Z.log2 (Z.abs n)))) (Z.abs n) "" in
  if n <? 0 then String "-"%char body else body.

(** A double in the unit interval, as [Math.random] returns it, is kept as
    the digits that [toString(36)] prints after the point: the empty text
    for [0], whose rendering is ["0"], the text ["i"] for [0.5], whose
    rendering is ["0.i"].  The conversion of the binary fraction to those
    digits is the platform's. *)
Definition Float01 := string.

Definition Float01_toString36 (x : Float01) : string :=
  match x with
  | EmptyString => "0"
  | _ => "0." +:+ x
  end.

End Js.

(** ** The world outside the component: the clock and the random source *)

Record World := {
  clock : nat -> Z;            (* the successive readings of [Date.now()] *)
  entropy : nat -> Js.Float01  (* the successive values of [Math.random()] *)
}.

Definition Date_now (w : World) : Z * World :=
  (clock w 0%nat, {| clock := fun n => clock w (S n); entropy := entropy w |}).

Definition Math_random (w : World) : Js.Float01 * World :=
  (entropy w 0%nat, {| clock := clock w; entropy := fun n => entropy w (S n) |}).

(** ** Identifier generator *)

Definition makeUID (w : World) : string * World :=
  let '(now, w) := Date_now w in
  let partA := Js.slice (Js.toUpperCase (Js.toString 36 now)) (-4) None in
  let '(r, w) := Math_random w in
  let partB := Js.slice (Js.toUpperCase (Js.Float01_toString36 r)) 2 (Some 6) in
  ("STU-" +:+ partA +:+ partB, w).

(** ** JSON values and the platform interface

    [JSON.parse], [JSON.stringify] and [String.prototype.trim] belong to the
    platform, not to the component: they are taken through the interface
    [Platform].  A number is an integer here; fractions and exponents are
    outside the embedding. *)

#[warnings="-register-all"]
Inductive json :=
| JNull
| JBool (b : bool)
| JNum (n : Z)
| JStr (s : string)
| JArr (items : list json)
| JObj (members : list (string * json)).

Class Platform := {
  JSON_parse : string -> option json;   (* [None]: a [SyntaxError] is thrown *)
  JSON_stringify : json -> string;
  String_trim : string -> string
}.

(** The member named [k] of an object.  The platform's reader keeps one
    member per name, so that the first one found is the only one. *)
Fixpoint assoc (k : string) (ms : list (string * json)) : option json :=
  match ms with
  | [] => None
  | (k', v) :: ms' => if String.eqb k k' then Some v else assoc k ms'
  end.

(** [v.k] for a value [v] that is not [null]: the member of an object,
    [undefined] (here [None]) for a missing member, and for every
    property name the component reads on a number, a string, a boolean or
    an array. *)
Definition get (v : json) (k : string) : option json :=
  match v with
  | JObj ms => assoc k ms
  | _ => None
  end.

(** ** Outcomes of a call

    A call returns, or throws one of the two errors the platform raises
    here.  [OffInterface] marks a run that has picked up, from a store the
    component did not write, a value whose type is not the one the
    [Student] interface declares for its field; the embedding, which is
    typed by that interface, does not follow such runs. *)

Inductive JsError := SyntaxError | TypeError.

Inductive outcome (A : Type) :=
| Returns (a : A)
| Throws (e : JsError)
| OffInterface.
Arguments Returns {A} a.
Arguments Throws {A} e.
Arguments OffInterface {A}.

(** Computations that read the clock or the random source and may throw. *)
Definition M (A : Type) : Type := World -> outcome (A * World).

Definition ret {A} (a : A) : M A := fun w => Returns (a, w).
Definition throw {A} (e : JsError) : M A := fun _ => Throws e.
Definition off_interface {A} : M A := fun _ => OffInterface.
Definition bind {A B} (m : M A) (k : A -> M B) : M B :=
  fun w =>
    match m w with
    | Returns (a, w') => k a w'
    | Throws e => Throws e
    | OffInterface => OffInterface
    end.
Definition lift {A} (f : World -> A * World) : M A := fun w => Returns (f w).

Declare Scope js_scope.
Delimit Scope js_scope with js.
Notation "x <- m ;; k" := (bind m (fun x => k))
  (at level 100, m at next level, right associativity) : js_scope.

(** [l.map(f)] for a callback with effects. *)
Fixpoint Array_map {A B} (f : A -> M B) (l : list A) : M (list B) :=
  match l with
  | [] => ret []
  | a :: l' => (b <- f a ;; bs <- Array_map f l' ;; ret (b :: bs))%js
  end.

(** ** Data model *)

Inductive Att := Present | Absent.
Inductive Type_ := School | College.

(** [type Filter = 'All' | 'Present' | 'Absent' | 'School' | 'College']:
    the literal ['All'], or a literal of [Att], or a literal of [Type]. *)
Inductive Filter :=
| All
| ByAttendance (a : Att)
| ByType (t : Type_).

#[global] Instance Att_eq_dec : EqDecision Att.
Proof. solve_decision. Defined.
#[global] Instance Type_eq_dec : EqDecision Type_.
Proof. solve_decision. Defined.
#[global] Instance Filter_eq_dec : EqDecision Filter.
Proof. solve_decision. Defined.

Definition Att_literal (a : Att) : string :=
  match a with Present => "Present" | Absent => "Absent" end.
Definition Type_literal (t : Type_) : string :=
  match t with School => "School" | College => "College" end.

(** What [renderChart] hands to the drawing library: the array [data] and
    the text in the middle of the donut.  The percentage is
    [Math.round((presentCount / total) * 100)], a computation on doubles
    that is kept symbolic. *)
Record Slice := { label : string; value : nat }.

Inductive CenterLabel :=
| NoData
| PercentPresent (presentCount total : nat).

Record Chart := { series : list Slice; centerLabel : CenterLabel }.

(** Callbacks handed to [setTimeout], with their delay in milliseconds. *)
Inductive Callback := FinishClose.
Definition Timer : Type := nat * Callback.

Record AddForm := { form_name : string; form_type : Type_ }.

(** The fields of the component, followed by the parts of the browser it
    acts on: the ['students'] slot of [localStorage], the donut container
    (whether it is in the page, and what was last drawn in it), and the
    timers that are pending. *)
Record State (S : Type) := {
  students : list S;
  filteredStudents : list S;
  currentFilter : Filter;
  totalCount : nat;
  presentCount : nat;
  absentCount : nat;
  addForm : AddForm;
  showEditModal : bool;
  modalClosing : bool;
  editModel : option S;
  viewReady : bool;
  localStorage : option string;
  anchor : bool;
  donut : option Chart;
  timers : list Timer
}.
Arguments students {S} _.
Arguments filteredStudents {S} _.
Arguments currentFilter {S} _.
Arguments totalCount {S} _.
Arguments presentCount {S} _.
Arguments absentCount {S} _.
Arguments addForm {S} _.
Arguments showEditModal {S} _.
Arguments modalClosing {S} _.
Arguments editModel {S} _.
Arguments viewReady {S} _.
Arguments localStorage {S} _.
Arguments anchor {S} _.
Arguments donut {S} _.
Arguments timers {S} _.

Section Assign.
Context {S : Type}.
Implicit Type st : State S.

Definition set_students v st :=
  {| students := v; filteredStudents := filteredStudents st;
     currentFilter := currentFilter st; totalCount := totalCount st;
     presentCount := presentCount st; absentCount := absentCount st;
     addForm := addForm st; showEditModal := showEditModal st;
     modalClosing := modalClosing st; editModel := editModel st;
     viewReady := viewReady st; localStorage := localStorage st;
     anchor := anchor st; donut := donut st; timers := timers st |}.
Definition set_filteredStudents v st :=
  {| students := students st; filteredStudents := v;
     currentFilter := currentFilter st; totalCount := totalCount st;
     presentCount := presentCount st; absentCount := absentCount st;
     addForm := addForm st; showEditModal := showEditModal st;
     modalClosing := modalClosing st; editModel := editModel st;
     viewReady := viewReady st; localStorage := localStorage st;
     anchor := anchor st; donut := donut st; timers := timers st |}.
Definition set_currentFilter v st :=
  {| students := students st; filteredStudents := filteredStudents st;
     currentFilter := v; totalCount := totalCount st;
     presentCount := presentCount st; absentCount := absentCount st;
     addForm := addForm st; showEditModal := showEditModal st;
     modalClosing := modalClosing st; editModel := editModel st;
     viewReady := viewReady st; localStorage := localStorage st;
     anchor := anchor st; donut := donut st; timers := timers st |}.
Definition set_totalCount v st :=
  {| students := students st; filteredStudents := filteredStudents st;
     currentFilter := currentFilter st; totalCount := v;
     presentCount := presentCount st; absentCount := absentCount st;
     addForm := addForm st; showEditModal := showEditModal st;
     modalClosing := modalClosing st; editModel := editModel st;
     viewReady := viewReady st; localStorage := localStorage st;
     anchor := anchor st; donut := donut st; timers := timers st |}.
Definition set_presentCount v st :=
  {| students := students st; filteredStudents := filteredStudents st;
     currentFilter := currentFilter st; totalCount := totalCount st;
     presentCount := v; absentCount := absentCount st;
     addForm := addForm st; showEditModal := showEditModal st;
     modalClosing := modalClosing st; editModel := editModel st;
     viewReady := viewReady st; localStorage := localStorage st;
     anchor := anchor st; donut := donut st; timers := timers st |}.
Definition set_absentCount v st :=
  {| students := students st; filteredStudents := filteredStudents st;
     currentFilter := currentFilter st; totalCount := totalCount st;
     presentCount := presentCount st; absentCount := v;
     addForm := addForm st; showEditModal := showEditModal st;
     modalClosing := modalClosing st; editModel := editModel st;
     viewReady := viewReady st; localStorage := localStorage st;
     anchor := anchor st; donut := donut st; timers := timers st |}.
Definition set_addForm v st :=
  {| students := students st; filteredStudents := filteredStudents st;
     currentFilter := currentFilter st; totalCount := totalCount st;
     presentCount := presentCount st; absentCount := absentCount st;
     addForm := v; showEditModal := showEditModal st;
     modalClosing := modalClosing st; editModel := editModel st;
     viewReady := viewReady st; localStorage := localStorage st;
     anchor := anchor st; donut := donut st; timers := timers st |}.
Definition set_showEditModal v st :=
  {| students := students st; filteredStudents := filteredStudents st;
     currentFilter := currentFilter st; totalCount := totalCount st;
     presentCount := presentCount st; absentCount := absentCount st;
     addForm := addForm st; showEditModal := v;
     modalClosing := modalClosing st; editModel := editModel st;
     viewReady := viewReady st; localStorage := localStorage st;
     anchor := anchor st; donut := donut st; timers := timers st |}.
Definition set_modalClosing v st :=
  {| students := students st; filteredStudents := filteredStudents st;
     currentFilter := currentFilter st; totalCount := totalCount st;
     presentCount := presentCount st; absentCount := absentCount st;
     addForm := addForm st; showEditModal := showEditModal st;
     modalClosing := v; editModel := editModel st;
     viewReady := viewReady st; localStorage := localStorage st;
     anchor := anchor st; donut := donut st; timers := timers st |}.
Definition set_editModel v st :=
  {| students := students st; filteredStudents := filteredStudents st;
     currentFilter := currentFilter st; totalCount := totalCount st;
     presentCount := presentCount st; absentCount := absentCount st;
     addForm := addForm st; showEditModal := showEditModal st;
     modalClosing := modalClosing st; editModel := v;
     viewReady := viewReady st; localStorage := localStorage st;
     anchor := anchor st; donut := donut st; timers := timers st |}.
Definition set_viewReady v st :=
  {| students := students st; filteredStudents := filteredStudents st;
     currentFilter := currentFilter st; totalCount := totalCount st;
     presentCount := presentCount st; absentCount := absentCount st;
     addForm := addForm st; showEditModal := showEditModal st;
     modalClosing := modalClosing st; editModel := editModel st;
     viewReady := v; localStorage := localStorage st;
     anchor := anchor st; donut := donut st; timers := timers st |}.
Definition set_localStorage v st :=
  {| students := students st; filteredStudents := filteredStudents st;
     currentFilter := currentFilter st; totalCount := totalCount st;
     presentCount := presentCount st; absentCount := absentCount st;
     addForm := addForm st; showEditModal := showEditModal st;
     modalClosing := modalClosing st; editModel := editModel st;
     viewReady := viewReady st; localStorage := v;
     anchor := anchor st; donut := donut st; timers := timers st |}.
Definition set_donut v st :=
  {| students := students st; filteredStudents := filteredStudents st;
     currentFilter := currentFilter st; totalCount := totalCount st;
     presentCount := presentCount st; absentCount := absentCount st;
     addForm := addForm st; showEditModal := showEditModal st;
     modalClosing := modalClosing st; editModel := editModel st;
     viewReady := viewReady st; localStorage := localStorage st;
     anchor := anchor st; donut := v; timers := timers st |}.
Definition set_timers v st :=
  {| students := students st; filteredStudents := filteredStudents st;
     currentFilter := currentFilter st; totalCount := totalCount st;
     presentCount := presentCount st; absentCount := absentCount st;
     addForm := addForm st; showEditModal := showEditModal st;
     modalClosing := modalClosing st; editModel := editModel st;
     viewReady := viewReady st; localStorage := localStorage st;
     anchor := anchor st; donut := donut st; timers := v |}.
End Assign.

(** ** What the two revisions share

    The interface of a revision: its [Student] type seen through the three
    fields the shared code reads, the assignment to [attendance], the
    object that [JSON.stringify] sees, and the chart that [renderChart]
    draws from the two counters once the guards at its top have passed. *)

Class Variant (Student : Type) := {
  id_of : Student -> Z;
  type_of : Student -> Type_;
  attendance_of : Student -> Att;
  assign_attendance : Att -> Student -> Student;
  toJSON : Student -> json;
  draw : nat -> nat -> Chart
}.

Section Dashboard.
Context `{Platform} {Student : Type} `{Variant Student}.
Implicit Type st : State Student.

(** [private save()] *)
Definition save st : State Student :=
  set_localStorage
    (Some (JSON_stringify (JArr (map toJSON (students st))))) st.

(** [private updateStats()] *)
Definition updateStats st : State Student :=
  let st := set_totalCount (length (filteredStudents st)) st in
  let st :=
    set_presentCount
      (length (filter (fun s => attendance_of s = Present) (filteredStudents st)))
      st in
  set_absentCount
    (length (filter (fun s => attendance_of s = Absent) (filteredStudents st)))
    st.

(** [private renderChart()]: nothing is drawn before the view is ready
    or without the container; otherwise the container is emptied and
    the chart of the two counters takes its place. *)
Definition renderChart st : State Student :=
  if negb (viewReady st) || negb (anchor st) then st
  else set_donut (Some (draw (presentCount st) (absentCount st))) st.

(** [applyFilter(f)] *)
Definition applyFilter (f : Filter) st : State Student :=
  let st := set_currentFilter f st in
  let st :=
    match f with
    | ByAttendance a =>
        set_filteredStudents
          (filter (fun s => attendance_of s = a) (students st)) st
    | ByType t =>
        set_filteredStudents
          (filter (fun s => type_of s = t) (students st)) st
    | All => set_filteredStudents (students st) st
    end in
  renderChart (updateStats st).

(** [clearFilter()] *)
Definition clearFilter st : State Student := applyFilter All st.

(** [students.findIndex(s => s.id === id)], [None] for [-1]. *)
Definition findIndex (id : Z) (l : list Student) : option nat :=
  fst <$> list_find (fun s => id_of s = id) l.

(** [deleteStudent(id)]; [confirmed] is the answer to the [confirm]
    dialog. *)
Definition deleteStudent (confirmed : bool) (id : Z) st : State Student :=
  if negb confirmed then st
  else
    let st := set_students (filter (fun s => id_of s <> id) (students st)) st in
    let st := save st in
    applyFilter (currentFilter st) st.

(** [openEdit(student)] *)
Definition openEdit (student : Student) st : State Student :=
  let st := set_editModel (Some student) st in
  set_showEditModal true st.

(** [cancelEdit()]: the flag is raised at once, the rest is left to a
    timer. *)
Definition cancelEdit st : State Student :=
  let st := set_modalClosing true st in
  set_timers (timers st ++ [(250%nat, FinishClose)]) st.

(** [saveEdit()] *)
Definition saveEdit st : State Student :=
  match editModel st with
  | None => st
  | Some model =>
      let st :=
        match findIndex (id_of model) (students st) with
        | Some idx =>
            let st := set_students (<[idx := model]> (students st)) st in
            let st := save st in
            applyFilter (currentFilter st) st
        | None => st
        end in
      cancelEdit st
  end.

(** [onAttendanceChange(student, att)] *)
Definition onAttendanceChange (student : Student) (att : Att) st
  : State Student :=
  match findIndex (id_of student) (students st) with
  | Some idx =>
      let st :=
        set_students (alter (assign_attendance att) idx (students st)) st in
      let st := save st in
      applyFilter (currentFilter st) st
  | None => st
  end.

(** The body of the callback that [cancelEdit] schedules, and the event
    loop running the oldest pending timer. *)
Definition run_callback (cb : Callback) st : State Student :=
  match cb with
  | FinishClose =>
      let st := set_showEditModal false st in
      let st := set_modalClosing false st in
      set_editModel None st
  end.

Definition fire st : State Student :=
  match timers st with
  | [] => st
  | (_, cb) :: rest => run_callback cb (set_timers rest st)
  end.
End Dashboard.

(** [p === lit] for a property [p] and a string literal [lit]. *)
Definition is_literal (p : option json) (lit : string) : bool :=
  match p with
  | Some (JStr t) => String.eqb t lit
  | _ => false
  end.

(** ** The revision with a [uid] *)

Module Rich.

Record Student := {
  id : Z;
  uid : string;
  name : string;
  type : Type_;
  attendance : Att
}.

Definition set_uid (u : string) (s : Student) : Student :=
  {| id := id s; uid := u; name := name s; type := type s;
     attendance := attendance s |}.

Definition set_attendance (a : Att) (s : Student) : Student :=
  {| id := id s; uid := uid s; name := name s; type := type s;
     attendance := a |}.

Definition toJSON (s : Student) : json :=
  JObj [("id", JNum (id s));
        ("uid", JStr (uid s));
        ("name", JStr (name s));
        ("type", JStr (Type_literal (type s)));
        ("attendance", JStr (Att_literal (attendance s)))].

(** The array [data] of [renderChart]: the two slices, those with a
    positive value only. *)
Definition data (presentCount absentCount : nat) : list Slice :=
  filter (fun d => (0 < value d)%nat)
    [ {| label := "Present"; value := presentCount |};
      {| label := "Absent"; value := absentCount |} ].

(** [renderChart] past its guards: the text alone when there is nothing
    to show, else the slices and the percentage. *)
Definition draw (presentCount absentCount : nat) : Chart :=
  let total := (presentCount + absentCount)%nat in
  if (total =? 0)%nat then {| series := []; centerLabel := NoData |}
  else {| series := data presentCount absentCount;
          centerLabel := PercentPresent presentCount total |}.

#[global] Instance variant : Variant Student :=
  Build_Variant Student id type attendance set_attendance toJSON draw.

Section Ops.
Context `{Platform}.
Implicit Type st : State Student.

(** The arrow function that [load] maps over the parsed array.
    Reading a property of [null] throws; a missing or [null] member
    falls back to its default; [type] and [attendance] are compared
    with one literal each. *)
Definition normalize (s : json) : M Student :=
  match s with
  | JNull => throw TypeError
  | _ =>
      (i <- match get s "id" with
            | None | Some JNull => lift Date_now
            | Some (JNum n) => ret n
            | Some _ => off_interface
            end ;;
       u <- match get s "uid" with
            | None | Some JNull => lift makeUID
            | Some (JStr t) => ret t
            | Some _ => off_interface
            end ;;
       n <- match get s "name" with
            | None | Some JNull => ret ""
            | Some (JStr t) => ret t
            | Some _ => off_interface
            end ;;
       ret {| id := i; uid := u; name := n;
              type := if is_literal (get s "type") "College"
                      then College else School;
              attendance := if is_literal (get s "attendance") "Absent"
                            then Absent else Present |})%js
  end.

(** The [forEach] of [load], with its set [seen]. *)
Fixpoint ensure_unique (seen : gset string) (l : list Student) (w : World)
  : list Student * World :=
  match l with
  | [] => ([], w)
  | s :: rest =>
      let '(s, w) :=
        if decide (uid s ∈ seen)
        then let '(u, w) := makeUID w in (set_uid u s, w)
        else (s, w) in
      let '(rest, w) := ensure_unique ({[uid s]} ∪ seen) rest w in
      (s :: rest, w)
  end.

(** [private load()] *)
Definition load st : M (State Student) :=
  (parsed <- match localStorage st with
             | None | Some "" => ret (JArr [])
             | Some raw =>
                 match JSON_parse raw with
                 | Some v => ret v
                 | None => throw SyntaxError
                 end
             end ;;
   match parsed with
   | JArr items =>
       normalized <- Array_map normalize items ;;
       unique <- lift (ensure_unique ∅ normalized) ;;
       ret (save (set_students unique st))
   | _ => throw TypeError
   end)%js.

(** [addStudent()] *)
Definition addStudent st (w : World) : State Student * World :=
  let name := String_trim (form_name (addForm st)) in
  match name with
  | "" => (st, w)
  | _ =>
      let '(now, w) := Date_now w in
      let '(u, w) := makeUID w in
      let newStudent :=
        {| id := now; uid := u; name := name;
           type := form_type (addForm st); attendance := Present |} in
      let st := set_students (students st ++ [newStudent]) st in
      let st := save st in
      let st := set_addForm {| form_name := ""; form_type := School |} st in
      (applyFilter (currentFilter st) st, w)
  end.

(** [ngOnInit()] and [ngAfterViewInit()] *)
Definition ngOnInit st : M (State Student) :=
  (st <- load st ;; ret (applyFilter All st))%js.

Definition ngAfterViewInit st : State Student :=
  renderChart (set_viewReady true st).
End Ops.

End Rich.

(** ** The revision without a [uid] *)

Module Simple.

Record Student := {
  id : Z;
  name : string;
  type : Type_;
  attendance : Att
}.

Definition set_attendance (a : Att) (s : Student) : Student :=
  {| id := id s; name := name s; type := type s; attendance := a |}.

Definition toJSON (s : Student) : json :=
  JObj [("id", JNum (id s));
        ("name", JStr (name s));
        ("type", JStr (Type_literal (type s)));
        ("attendance", JStr (Att_literal (attendance s)))].

(** The array [data] of [renderChart]: both slices, whatever they hold. *)
Definition data (presentCount absentCount : nat) : list Slice :=
  [ {| label := "Present"; value := presentCount |};
    {| label := "Absent"; value := absentCount |} ].

Definition draw (presentCount absentCount : nat) : Chart :=
  let total := (presentCount + absentCount)%nat in
  {| series := data presentCount absentCount;
     centerLabel := if (total =? 0)%nat then NoData
                    else PercentPresent presentCount total |}.

#[global] Instance variant : Variant Student :=
  Build_Variant Student id type attendance set_attendance toJSON draw.

(** [JSON.parse(raw) as Student[]] is an unchecked cast.  It is followed
    on the values for which it is sound, the arrays of objects that
    [save] writes; any other parsed value leaves the interface. *)
Definition as_Student (v : json) : option Student :=
  match v with
  | JObj [(k1, JNum i); (k2, JStr n); (k3, JStr t); (k4, JStr a)] =>
      if String.eqb k1 "id" && String.eqb k2 "name"
         && String.eqb k3 "type" && String.eqb k4 "attendance"
      then
        ty ← (if String.eqb t "School" then Some School
              else if String.eqb t "College" then Some College else None);
        at_ ← (if String.eqb a "Present" then Some Present
               else if String.eqb a "Absent" then Some Absent else None);
        Some {| id := i; name := n; type := ty; attendance := at_ |}
      else None
  | _ => None
  end.

Definition as_Students (v : json) : option (list Student) :=
  match v with
  | JArr items => mapM as_Student items
  | _ => None
  end.

Section Ops.
Context `{Platform}.
Implicit Type st : State Student.

(** [private load()] *)
Definition load st : outcome (State Student) :=
  match localStorage st with
  | None | Some "" => Returns (set_students [] st)
  | Some raw =>
      match JSON_parse raw with
      | None => Throws SyntaxError
      | Some v =>
          match as_Students v with
          | Some l => Returns (set_students l st)
          | None => OffInterface
          end
      end
  end.

(** [addStudent()] *)
Definition addStudent st (w : World) : State Student * World :=
  let name := String_trim (form_name (addForm st)) in
  match name with
  | "" => (st, w)
  | _ =>
      let '(now, w) := Date_now w in
      let newStudent :=
        {| id := now; name := name;
           type := form_type (addForm st); attendance := Absent |} in
      let st := set_students (students st ++ [newStudent]) st in
      let st := save st in
      let st := set_addForm {| form_name := ""; form_type := School |} st in
      (applyFilter (currentFilter st) st, w)
  end.

(** [ngOnInit()] *)
Definition ngOnInit st : outcome (State Student) :=
  match load st with
  | Returns st =>
      let st := applyFilter All st in
      let st := set_viewReady true st in
      Returns (renderChart st)
  | Throws e => Throws e
  | OffInterface => OffInterface
  end.
End Ops.

End Simple.

(** ** A reference platform

    An executable instance of [Platform], on which the component can be
    run: a printer and a reader for the JSON texts with integer numerals,
    and [trim] for the ASCII white space.  The statements below hold for
    every platform; this one provides their concrete runs. *)

Module Reference.

Definition hex4 (n : Z) : string :=
  let d k := Js.digit ((n / 16 ^ k) mod 16) in
  String (d 3) (String (d 2) (String (d 1) (String (d 0) ""))).

Definition quote : ascii := "034"%char.
Definition backslash : ascii := "092"%char.

(** Printer. *)
Definition escape (c : ascii) : string :=
  let n := Z.of_nat (nat_of_ascii c) in
  if n =? 34 then String backslash (String quote "")
  else if n =? 92 then String backslash (String backslash "")
  else if n =? 8 then String backslash "b"
  else if n =? 9 then String backslash "t"
  else if n =? 10 then String backslash "n"
  else if n =? 12 then String backslash "f"
  else if n =? 13 then String backslash "r"
  else if n <? 32 then String backslash ("u" +:+ hex4 n)
  else String c "".

Fixpoint escape_all (s : string) : string :=
  match s with
  | EmptyString => ""
  | String c r => escape c +:+ escape_all r
  end.

Definition quoted (s : string) : string :=
  String quote (escape_all s +:+ String quote "").

Fixpoint commas (l : list string) : string :=
  match l with
  | [] => ""
  | [x] => x
  | x :: r => x +:+ "," +:+ commas r
  end.

Fixpoint stringify (v : json) : string :=
  match v with
  | JNull => "null"
  | JBool true => "true"
  | JBool false => "false"
  | JNum n => Js.toString 10 n
  | JStr s => quoted s
  | JArr items => "[" +:+ commas (map stringify items) +:+ "]"
  | JObj members =>
      "{" +:+ commas (map (fun m => quoted (fst m) +:+ ":" +:+ stringify (snd m))
                          members) +:+ "}"
  end.

(** Reader. *)
Definition is_ws (c : ascii) : bool :=
  let n := nat_of_ascii c in
  ((n =? 32) || (n =? 9) || (n =? 10) || (n =? 13))%nat.

Fixpoint skip_ws (s : string) : string :=
  match s with
  | String c r => if is_ws c then skip_ws r else s
  | EmptyString => s
  end.

Definition digit_value (c : ascii) : option Z :=
  let n := Z.of_nat (nat_of_ascii c) in
  if (48 <=? n) && (n <=? 57) then Some (n - 48) else None.

Definition hex_value (c : ascii) : option Z :=
  let n := Z.of_nat (nat_of_ascii c) in
  if (48 <=? n) && (n <=? 57) then Some (n - 48)
  else if (97 <=? n) && (n <=? 102) then Some (n - 87)
  else if (65 <=? n) && (n <=? 70) then Some (n - 55)
  else None.

Fixpoint read_digits (acc : Z) (s : string) : Z * string :=
  match s with
  | String c r =>
      match digit_value c with
      | Some d => read_digits (10 * acc + d) r
      | None => (acc, s)
      end
  | EmptyString => (acc, s)
  end.

(** An integer numeral: no digit behind a leading zero, and neither a
    fraction nor an exponent behind the digits. *)
Definition read_leading (s : string) : option (Z * string) :=
  match s with
  | String c r =>
      match digit_value c with
      | Some d => Some (if d =? 0 then (0, r) else read_digits d r)
      | None => None
      end
  | EmptyString => None
  end.

Definition continues_numeral (s : string) : bool :=
  match s with
  | String c _ =>
      match digit_value c with Some _ => true | None => false end
      || Ascii.eqb c "." || Ascii.eqb c "e" || Ascii.eqb c "E"
  | EmptyString => false
  end.

Definition read_natural (s : string) : option (Z * string) :=
  '(n, rest) ← read_leading s;
  if continues_numeral rest then None else Some (n, rest).

(** The characters of a string literal, after its opening quote. *)
Fixpoint read_chars (s : string) : option (string * string) :=
  match s with
  | EmptyString => None
  | String c r =>
      if Ascii.eqb c quote then Some ("", r)
      else if Ascii.eqb c backslash then
        match r with
        | String e r' =>
            let keep ch rest :=
              '(t, rest') ← read_chars rest; Some (String ch t, rest') in
            if Ascii.eqb e quote then keep quote r'
            else if Ascii.eqb e backslash then keep backslash r'
            else if Ascii.eqb e "/" then keep "/"%char r'
            else if Ascii.eqb e "b" then keep "008"%char r'
            else if Ascii.eqb e "t" then keep "009"%char r'
            else if Ascii.eqb e "n" then keep "010"%char r'
            else if Ascii.eqb e "f" then keep "012"%char r'
            else if Ascii.eqb e "r" then keep "013"%char r'
            else if Ascii.eqb e "u" then
              match r' with
              | String h3 (String h2 (String h1 (String h0 r''))) =>
                  a ← hex_value h3; b ← hex_value h2;
                  c' ← hex_value h1; d ← hex_value h0;
                  let n := ((a * 16 + b) * 16 + c') * 16 + d in
                  if n <? 128 then keep (ascii_of_nat (Z.to_nat n)) r''
                  else None
              | _ => None
              end
            else None
        | EmptyString => None
        end
      else if (nat_of_ascii c <? 32)%nat then None
      else '(t, rest) ← read_chars r; Some (String c t, rest)
  end.

Definition expect (word : string) (v : json) (s : string)
  : option (json * string) :=
  if String.prefix word s
  then Some (v, Js.slice s (Z.of_nat (String.length word)) None)
  else None.

(** A later member replaces an earlier one of the same name. *)
Fixpoint put (k : string) (v : json) (ms : list (string * json))
  : list (string * json) :=
  match ms with
  | [] => [(k, v)]
  | (k', v') :: ms' =>
      if String.eqb k k' then (k, v) :: ms' else (k', v') :: put k v ms'
  end.

Fixpoint read_value (fuel : nat) (s : string) : option (json * string) :=
  match fuel with
  | O => None
  | S fuel =>
      match skip_ws s with
      | EmptyString => None
      | String c r as s' =>
          if Ascii.eqb c "n" then expect "null" JNull s'
          else if Ascii.eqb c "t" then expect "true" (JBool true) s'
          else if Ascii.eqb c "f" then expect "false" (JBool false) s'
          else if Ascii.eqb c quote then
            '(t, rest) ← read_chars r; Some (JStr t, rest)
          else if Ascii.eqb c "-" then
            '(n, rest) ← read_natural r; Some (JNum (- n), rest)
          else if Ascii.eqb c "[" then
            match skip_ws r with
            | String "]" rest => Some (JArr [], rest)
            | _ => '(items, rest) ← read_items fuel r; Some (JArr items, rest)
            end
          else if Ascii.eqb c "{" then
            match skip_ws r with
            | String "}" rest => Some (JObj [], rest)
            | _ =>
                '(ms, rest) ← read_members fuel r;
                Some (JObj (fold_left (fun acc m => put (fst m) (snd m) acc)
                                      ms []), rest)
            end
          else '(n, rest) ← read_natural s'; Some (JNum n, rest)
      end
  end
with read_items (fuel : nat) (s : string) : option (list json * string) :=
  match fuel with
  | O => None
  | S fuel =>
      '(v, r) ← read_value fuel s;
      match skip_ws r with
      | String "," r' => '(vs, rest) ← read_items fuel r'; Some (v :: vs, rest)
      | String "]" rest => Some ([v], rest)
      | _ => None
      end
  end
with read_members (fuel : nat) (s : string)
  : option (list (string * json) * string) :=
  match fuel with
  | O => None
  | S fuel =>
      match skip_ws s with
      | String c r =>
          if Ascii.eqb c quote then
            '(k, r) ← read_chars r;
            match skip_ws r with
            | String ":" r =>
                '(v, r) ← read_value fuel r;
                match skip_ws r with
                | String "," r' =>
                    '(ms, rest) ← read_members fuel r'; Some ((k, v) :: ms, rest)
                | String "}" rest => Some ([(k, v)], rest)
                | _ => None
                end
            | _ => None
            end
          else None
      | EmptyString => None
      end
  end.

Definition parse (s : string) : option json :=
  '(v, rest) ← read_value (2 * String.length s + 2) s;
  match skip_ws rest with
  | EmptyString => Some v
  | _ => None
  end.

(** [trim] for the ASCII white space and line ends. *)
Definition is_blank (c : ascii) : bool :=
  let n := nat_of_ascii c in
  ((n =? 32) || ((9 <=? n) && (n <=? 13)))%nat.

Fixpoint trim_start (s : string) : string :=
  match s with
  | String c r => if is_blank c then trim_start r else s
  | EmptyString => s
  end.

Definition trim (s : string) : string :=
  String.rev (trim_start (String.rev (trim_start s))).

#[global] Instance platform : Platform := {|
  JSON_parse := parse;
  JSON_stringify := stringify;
  String_trim := trim
|}.

End Reference.

(** ** Helpers for statements and sample data *)

(** The result of a computation, without the world it leaves. *)
Definition run {A} (m : M A) (w : World) : outcome A :=
  match m w with
  | Returns (a, _) => Returns a
  | Throws e => Throws e
  | OffInterface => OffInterface
  end.

(** A world whose clock stands still at [t] and whose random source
    yields the values of [rs] in turn, then [0]. *)
Definition world (t : Z) (rs : list Js.Float01) : World :=
  {| clock := fun _ => t; entropy := fun n => nth n rs "" |}.

(** The component as its constructor leaves it, in a page whose storage
    slot holds [slot]. *)
Definition initial {S : Type} (slot : option string) : State S :=
  {| students := []; filteredStudents := []; currentFilter := All;
     totalCount := 0; presentCount := 0; absentCount := 0;
     addForm := {| form_name := ""; form_type := School |};
     showEditModal := false; modalClosing := false; editModel := None;
     viewReady := false; localStorage := slot; anchor := true;
     donut := None; timers := [] |}.

(** [count a l]: how many students of [l] have the attendance [a]. *)
Fixpoint count `{Variant Student} (a : Att) (l : list Student) : nat :=
  match l with
  | [] => 0
  | s :: r => (if decide (attendance_of s = a) then 1 else 0) + count a r
  end.

(** A student of the richer revision without its [uid]. *)
Definition erase_uid (s : Rich.Student) : Simple.Student :=
  {| Simple.id := Rich.id s; Simple.name := Rich.name s;
     Simple.type := Rich.type s; Simple.attendance := Rich.attendance s |}.

(** The draws of [ensure_unique] are lucky when each identifier it
    generates is one it has not seen so far. *)
Fixpoint lucky (seen : gset string) (l : list Rich.Student) (w : World) : Prop :=
  match l with
  | [] => True
  | s :: rest =>
      if decide (Rich.uid s ∈ seen)
      then let '(u, w') := makeUID w in
           (u ∉ seen) /\ lucky ({[u]} ∪ seen) rest w'
      else lucky ({[Rich.uid s]} ∪ seen) rest w
  end.

Module Sample.
Import Reference.

Definition alice : Rich.Student :=
  {| Rich.id := 1700000000001; Rich.uid := "STU-3V29A1B2"; Rich.name := "Alice";
     Rich.type := School; Rich.attendance := Present |}.
Definition bob : Rich.Student :=
  {| Rich.id := 1700000000002; Rich.uid := "STU-3V2AC3D4"; Rich.name := "Bob";
     Rich.type := College; Rich.attendance := Absent |}.
Definition carol : Rich.Student :=
  {| Rich.id := 1700000000003; Rich.uid := "STU-3V2BE5F6"; Rich.name := "Carol";
     Rich.type := College; Rich.attendance := Present |}.

(** A dashboard showing [l], saved, with the filter [f] applied. *)
Definition showing (l : list Rich.Student) (f : Filter) : State Rich.Student :=
  applyFilter f (save (set_students l (set_viewReady true (initial None)))).

Definition roster : State Rich.Student := showing [alice; bob; carol] All.

(** A record that is on screen no longer in the list: its row was
    deleted in the meantime. *)
Definition ghost : Rich.Student :=
  {| Rich.id := 42; Rich.uid := "STU-0000GONE"; Rich.name := "Ghost";
     Rich.type := School; Rich.attendance := Present |}.

Definition editing_ghost : State Rich.Student := openEdit ghost roster.

(** The add form filled in, in either revision. *)
Definition form : AddForm := {| form_name := "  Dave "; form_type := College |}.
Definition rich_form : State Rich.Student := set_addForm form roster.
Definition simple_form : State Simple.Student :=
  set_addForm form (initial None).

Definition noon : World := world 1700000000000 ["k3f9zabc"; "k3f9q0p1"].

(** A page whose slot holds what [save] wrote for [l]. *)
Definition stored (l : list Rich.Student) : State Rich.Student :=
  initial (Some (JSON_stringify (JArr (map toJSON l)))).

(** Three records that were stored with one and the same [uid]. *)
Definition triplets : State Rich.Student :=
  stored [alice; Rich.set_uid (Rich.uid alice) bob;
          Rich.set_uid (Rich.uid alice) carol].

(** A clock that advances by one millisecond at each reading. *)
Definition ticking : World :=
  {| clock := fun n => 1700000000000 + Z.of_nat n;
     entropy := fun n => nth n ["k3f9zabc"; "7qq0m2xw"] "" |}.

(** The scenario of the specification: add Alice (School), add Bob
    (College), mark Bob absent, show the colleges. *)
Definition scenario : State Rich.Student :=
  let st := Rich.ngAfterViewInit (initial None) in
  let st := set_addForm {| form_name := "Alice"; form_type := School |} st in
  let '(st, w) := Rich.addStudent st ticking in
  let st := set_addForm {| form_name := "Bob"; form_type := College |} st in
  let '(st, w) := Rich.addStudent st w in
  let st :=
    match students st with
    | [_; bob] => onAttendanceChange bob Absent st
    | _ => st
    end in
  applyFilter (ByType College) st.

(** Slots that hold no JSON text. *)
Definition garbled : string := "{oops".
Definition rich_garbled : State Rich.Student := initial (Some garbled).
Definition simple_garbled : State Simple.Student := initial (Some garbled).
End Sample.

(** ** Vocabulary for the properties of the whole component *)

(** The records that a filter lets through, in the order of the list. *)
Definition select `{Variant Student} (f : Filter) (l : list Student)
  : list Student :=
  match f with
  | All => l
  | ByAttendance a => filter (fun s => attendance_of s = a) l
  | ByType t => filter (fun s => type_of s = t) l
  end.

(** What is on screen follows from the list: the view is the selection
    of the current filter, the counters count the view, and a chart that
    can be drawn shows the counters. *)
Definition rederived `{Variant Student} (st : State Student) : Prop :=
  filteredStudents st = select (currentFilter st) (students st)
  /\ totalCount st = length (filteredStudents st)
  /\ presentCount st = count Present (filteredStudents st)
  /\ absentCount st = count Absent (filteredStudents st)
  /\ (viewReady st = true -> anchor st = true ->
      donut st = Some (draw (presentCount st) (absentCount st))).

(** The slot holds the text of the list. *)
Definition persisted `{Platform} `{Variant Student} (st : State Student) : Prop :=
  localStorage st = Some (JSON_stringify (JArr (map toJSON (students st)))).

(** The add form once [addStudent] has reset it. *)
Definition blank_form : AddForm := {| form_name := ""; form_type := School |}.

(** The lower-case letters of ASCII. *)
Definition lower_case (c : ascii) : Prop :=
  (97 <= nat_of_ascii c <= 122)%nat.

(** The sum of the values of a series. *)
Definition series_sum (l : list Slice) : nat :=
  foldr (fun d acc => (value d + acc)%nat) 0%nat l.

Module Cases.
Import Reference.

(** The roster with the modal of Bob open. *)
Definition editing_bob : State Rich.Student := openEdit Sample.bob Sample.roster.

(** Bob renamed in the working copy. *)
Definition robert : Rich.Student :=
  {| Rich.id := Rich.id Sample.bob; Rich.uid := Rich.uid Sample.bob;
     Rich.name := "Robert"; Rich.type := School; Rich.attendance := Present |}.
Definition editing_robert : State Rich.Student :=
  set_editModel (Some robert) editing_bob.

(** A stored entry with a name and a type in lower case, and nothing
    else. *)
Definition sparse : json := JObj [("name", JStr "Zed"); ("type", JStr "college")].

(** A clock that stands still, and three random values. *)
Definition still : World := world 1700000000000 ["k3f9zabc"; "7qq0m2xw"; "zz81aa00"].

(** The add form of the roster filled in. *)
Definition dave_form : State Rich.Student :=
  set_addForm {| form_name := "Dave"; form_type := School |} Sample.roster.

(** The other revision showing two students. *)
Definition ann : Simple.Student :=
  {| Simple.id := 7; Simple.name := "Ann"; Simple.type := School;
     Simple.attendance := Absent |}.
Definition ben : Simple.Student :=
  {| Simple.id := 7; Simple.name := "Ben"; Simple.type := College;
     Simple.attendance := Present |}.
(** A slot whose array has an empty object, then a [null]. *)
Definition nulled : State Rich.Student := initial (Some "[{}, null, 3]").

(** A page not yet initialised whose slot holds the three students. *)
Definition fresh_page : State Rich.Student :=
  Sample.stored [Sample.alice; Sample.bob; Sample.carol].
(** A page whose slot holds two records stored with one [uid]. *)
Definition twins_page : State Rich.Student :=
  Sample.stored [Sample.alice; Rich.set_uid (Rich.uid Sample.alice) Sample.bob].
Definition simple_page : State Simple.Student :=
  initial (Some (JSON_stringify (JArr (map toJSON [ann; ben])))).
End Cases.

(** * Properties *)

(** ** The shared pipeline, for either revision *)

Section Pipeline.
Context `{Platform} {Student : Type} `{Variant Student}.
Implicit Type st : State Student.
Implicit Type l : list Student.

Lemma count_filter a l :
  length (filter (fun s => attendance_of s = a) l) = count a l.
Proof.
  induction l as [|s l IH]; [reflexivity|].
  rewrite filter_cons. cbn [count].
  destruct (decide (attendance_of s = a)); cbn [length]; lia.
Qed.

Lemma count_partition l : (count Present l + count Absent l = length l)%nat.
Proof.
  induction l as [|s l IH]; [reflexivity|].
  cbn [count length].
  destruct (attendance_of s);
    repeat (case_decide; try congruence); lia.
Qed.

Lemma counters_sum l :
  (length (filter (fun s => attendance_of s = Present) l)
   + length (filter (fun s => attendance_of s = Absent) l) = length l)%nat.
Proof. rewrite !count_filter. apply count_partition. Qed.

Lemma findIndex_stale id l :
  (forall s, s ∈ l -> id_of s <> id) -> findIndex id l = None.
Proof.
  intros Hno. unfold findIndex.
  replace (list_find (fun s => id_of s = id) l) with (@None (nat * Student));
    [reflexivity|].
  symmetry. apply list_find_None, Forall_forall. exact Hno.
Qed.

(** The counters after any filter has been applied describe the view
    that the filter has selected. *)
Lemma applyFilter_stats f st :
  let st' := applyFilter f st in
  totalCount st' = length (filteredStudents st')
  /\ presentCount st' = count Present (filteredStudents st')
  /\ absentCount st' = count Absent (filteredStudents st')
  /\ (presentCount st' + absentCount st' = totalCount st')%nat.
Proof.
  unfold applyFilter, renderChart.
  destruct f; cbn;
    match goal with |- context [if ?b then _ else _] => destruct b end;
    cbn; rewrite <- !count_filter; repeat split; apply counters_sum.
Qed.

(** C5.  Whatever subset is on display, [updateStats] leaves it alone
    and sets [totalCount] to its size, [presentCount] to the number of
    its students that are Present, [absentCount] to the number that are
    Absent; the two counters add up to the total.  So it is for the
    subset that any filter selects, once [applyFilter] has returned. *)
Theorem updateStats_consistent st :
  let st' := updateStats st in
  filteredStudents st' = filteredStudents st
  /\ totalCount st' = length (filteredStudents st)
  /\ presentCount st' = count Present (filteredStudents st)
  /\ absentCount st' = count Absent (filteredStudents st)
  /\ (presentCount st' + absentCount st' = totalCount st')%nat
  /\ forall f,
       let st2 := applyFilter f st in
       totalCount st2 = length (filteredStudents st2)
       /\ presentCount st2 = count Present (filteredStudents st2)
       /\ absentCount st2 = count Absent (filteredStudents st2)
       /\ (presentCount st2 + absentCount st2 = totalCount st2)%nat.
Proof.
  cbn. rewrite <- !count_filter.
  repeat split; try apply counters_sum; apply applyFilter_stats.
Qed.

(** C6.  [onAttendanceChange] for a student whose [id] is the [id] of no
    record of the list returns the state it was given: the list, the
    storage slot, the filtered view and all the rest are as before. *)
Theorem onAttendanceChange_stale student att st :
  (forall s, s ∈ students st -> id_of s <> id_of student) ->
  onAttendanceChange student att st = st.
Proof.
  intros Hno. unfold onAttendanceChange.
  rewrite findIndex_stale by exact Hno. reflexivity.
Qed.

(** C9.  Once confirmed, [deleteStudent id] keeps exactly the records
    whose [id] differs from [id], where they were: none with that [id]
    is left, however many there were, every other record stays, and the
    new list is the old one with elements struck out.  The new list is
    what gets saved. *)
Theorem deleteStudent_all_matches id st :
  let st' := deleteStudent true id st in
  students st' = filter (fun s => id_of s <> id) (students st)
  /\ Forall (fun s => id_of s <> id) (students st')
  /\ (forall s, s ∈ students st -> id_of s <> id -> s ∈ students st')
  /\ students st' `sublist_of` students st
  /\ localStorage st' = Some (JSON_stringify (JArr (map toJSON (students st')))).
Proof.
  assert (Hst : students (deleteStudent true id st)
                = filter (fun s => id_of s <> id) (students st)).
  { unfold deleteStudent, applyFilter, renderChart. cbn.
    destruct (currentFilter st); cbn;
      match goal with |- context [if ?b then _ else _] => destruct b end;
      reflexivity. }
  cbv zeta. rewrite Hst. split; [reflexivity|]. split.
  { apply Forall_forall. intros s Hs.
    apply list_elem_of_filter in Hs. tauto. }
  split.
  { intros s Hs Hne. apply list_elem_of_filter. tauto. }
  split; [apply sublist_filter|].
  unfold deleteStudent, applyFilter, renderChart. cbn.
  destruct (currentFilter st); cbn;
    match goal with |- context [if ?b then _ else _] => destruct b end;
    reflexivity.
Qed.

(** Declined, [deleteStudent] does nothing. *)
Lemma deleteStudent_declined id st : deleteStudent false id st = st.
Proof. reflexivity. Qed.

Lemma fire_keeps st :
  students (fire st) = students st /\ localStorage (fire st) = localStorage st.
Proof.
  unfold fire. destruct (timers st) as [|[d []] rest]; split; reflexivity.
Qed.

Lemma fire_length st : length (timers (fire st)) = pred (length (timers st)).
Proof.
  unfold fire. destruct (timers st) as [|[d []] rest] eqn:E; cbn; [|reflexivity].
  rewrite E. reflexivity.
Qed.

Lemma fire_closes st :
  timers st <> [] ->
  editModel (fire st) = None /\ showEditModal (fire st) = false
  /\ modalClosing (fire st) = false.
Proof.
  unfold fire. destruct (timers st) as [|[d []] rest]; [congruence|].
  intros _. repeat split.
Qed.

(** Running every pending timer. *)
Lemma drain_keeps n st :
  students (Nat.iter n fire st) = students st
  /\ localStorage (Nat.iter n fire st) = localStorage st.
Proof.
  induction n as [|n [IH1 IH2]]; [split; reflexivity|].
  rewrite Nat.iter_succ.
  destruct (fire_keeps (Nat.iter n fire st)) as [-> ->]. split; assumption.
Qed.

Lemma drain_length n st :
  length (timers (Nat.iter n fire st)) = (length (timers st) - n)%nat.
Proof.
  induction n as [|n IH]; [cbn; lia|].
  rewrite Nat.iter_succ, fire_length, IH. lia.
Qed.

Lemma drain_closes st :
  timers st <> [] ->
  let st' := Nat.iter (length (timers st)) fire st in
  editModel st' = None /\ showEditModal st' = false
  /\ modalClosing st' = false /\ timers st' = [].
Proof.
  intros Hne. cbv zeta.
  destruct (length (timers st)) as [|n] eqn:E.
  { destruct (timers st); [congruence|discriminate]. }
  rewrite Nat.iter_succ.
  assert (Hlen : length (timers (Nat.iter n fire st)) = 1%nat).
  { rewrite drain_length. lia. }
  destruct (fire_closes (Nat.iter n fire st)) as (-> & -> & ->).
  { intros E'. rewrite E' in Hlen. discriminate. }
  repeat split.
  apply length_zero_iff_nil. rewrite fire_length, Hlen. reflexivity.
Qed.

(** C10.  [saveEdit] with a working copy whose [id] is the [id] of no
    record leaves the list and the storage slot as they were, and still
    starts closing the modal: [modalClosing] is raised and the closing
    callback is queued behind the timers already pending.  When the
    pending timers have run, the working copy is gone, the modal is
    closed, and the list and the slot are still the ones before the
    call. *)
Theorem saveEdit_stale model st :
  editModel st = Some model ->
  (forall s, s ∈ students st -> id_of s <> id_of model) ->
  let st' := saveEdit st in
  let st'' := Nat.iter (length (timers st')) fire st' in
  students st' = students st
  /\ localStorage st' = localStorage st
  /\ modalClosing st' = true
  /\ timers st' = (timers st ++ [(250%nat, FinishClose)])%list
  /\ editModel st'' = None
  /\ showEditModal st'' = false
  /\ modalClosing st'' = false
  /\ timers st'' = []
  /\ students st'' = students st
  /\ localStorage st'' = localStorage st.
Proof.
  intros Hm Hno. cbv zeta.
  assert (Hs : saveEdit st = cancelEdit st).
  { unfold saveEdit. rewrite Hm, findIndex_stale by exact Hno. reflexivity. }
  rewrite Hs.
  destruct (drain_closes (cancelEdit st)) as (E1 & E2 & E3 & E4).
  { cbn. intros E. by apply app_eq_nil in E as [_ ?]. }
  destruct (drain_keeps (length (timers (cancelEdit st))) (cancelEdit st))
    as [K1 K2].
  rewrite E1, E2, E3, E4, K1, K2. repeat split.
Qed.

End Pipeline.

(** ** Concrete runs of the shared pipeline *)

Lemma onAttendanceChange_stale_witness :
  onAttendanceChange Sample.ghost Absent Sample.roster = Sample.roster.
Proof.
  apply (onAttendanceChange_stale Sample.ghost Absent Sample.roster).
  intros s Hs. vm_compute in Hs.
  repeat (apply elem_of_cons in Hs as [-> | Hs]; [vm_compute; discriminate|]).
  by apply elem_of_nil in Hs.
Defined.

Lemma saveEdit_stale_witness :
  students (saveEdit Sample.editing_ghost) = students Sample.editing_ghost
  /\ localStorage (saveEdit Sample.editing_ghost)
     = localStorage Sample.editing_ghost
  /\ editModel (fire (saveEdit Sample.editing_ghost)) = None.
Proof.
  assert (Hno : forall s, s ∈ students Sample.editing_ghost ->
                          id_of s <> id_of Sample.ghost).
  { intros s Hs. vm_compute in Hs.
    repeat (apply elem_of_cons in Hs as [-> | Hs]; [vm_compute; discriminate|]).
    by apply elem_of_nil in Hs. }
  pose proof (saveEdit_stale Sample.ghost Sample.editing_ghost eq_refl Hno)
    as (Hs & Hl & _ & _ & He & _).
  split; [exact Hs|]. split; [exact Hl|]. exact He.
Defined.

(** Two records with one [id]: both go. *)
Example deleteStudent_twins :
  map Rich.name
      (students (deleteStudent true 1700000000002
                   (Sample.showing [Sample.alice; Sample.bob;
                                    Rich.set_uid "STU-TWIN0000" Sample.bob;
                                    Sample.carol] All)))
  = ["Alice"; "Carol"].
Proof. vm_compute. reflexivity. Qed.

(** ** Chart data *)

(** Past its guards, [renderChart] replaces what the container shows by
    the chart of the two counters; short of them it draws nothing. *)
Lemma renderChart_draws `{Variant Student} (st : State Student) :
  donut (renderChart st)
  = if viewReady st && anchor st
    then Some (draw (presentCount st) (absentCount st))
    else donut st.
Proof.
  unfold renderChart. destruct (viewReady st), (anchor st); reflexivity.
Qed.

Lemma rich_data_cases (p a : nat) :
  Rich.data p a
  = ((if decide (0 < p)%nat then [ {| label := "Present"; value := p |} ] else [])
     ++ (if decide (0 < a)%nat then [ {| label := "Absent"; value := a |} ] else []))%list.
Proof.
  unfold Rich.data. rewrite !filter_cons, filter_nil. cbn [value].
  destruct (decide (0 < p)%nat), (decide (0 < a)%nat); reflexivity.
Qed.

(** C4, as the sources have it.  In the revision with a [uid], when the
    two counters are not both zero the series of the chart is the slice
    of Present if its value is positive, followed by the slice of Absent
    if its value is positive, so that every slice in it has a positive
    value; for the counters 5 and 0 it is the single slice Present, 5.
    In the revision without a [uid] the series is always both slices. *)
Theorem chart_series (p a : nat) :
  (0 < p + a)%nat ->
  series (Rich.draw p a)
  = ((if decide (0 < p)%nat then [ {| label := "Present"; value := p |} ] else [])
     ++ (if decide (0 < a)%nat then [ {| label := "Absent"; value := a |} ] else []))%list
  /\ Forall (fun d => (0 < value d)%nat) (series (Rich.draw p a))
  /\ series (Rich.draw 5 0) = [ {| label := "Present"; value := 5 |} ]
  /\ series (Simple.draw p a)
     = [ {| label := "Present"; value := p |}; {| label := "Absent"; value := a |} ].
Proof.
  intros Hpos.
  assert (Hs : series (Rich.draw p a) = Rich.data p a).
  { unfold Rich.draw. destruct (Nat.eqb_spec (p + a) 0); [lia|reflexivity]. }
  rewrite Hs. split; [apply rich_data_cases|]. split.
  { unfold Rich.data. apply Forall_forall. intros d Hd.
    apply list_elem_of_filter in Hd. tauto. }
  split; reflexivity.
Qed.

Lemma chart_series_witness :
  series (Rich.draw 3 1)
  = [ {| label := "Present"; value := 3 |}; {| label := "Absent"; value := 1 |} ].
Proof.
  destruct (chart_series 3 1) as [Hs _]; [lia|]. exact Hs.
Defined.

(** In the revision without a [uid], the counters 5 and 0 give a series
    with the slice Absent, 0 in it. *)
Lemma simple_chart_zero_slice :
  (0 < 5 + 0)%nat
  /\ series (Simple.draw 5 0)
     = [ {| label := "Present"; value := 5 |}; {| label := "Absent"; value := 0 |} ]
  /\ ~ Forall (fun d => (0 < value d)%nat) (series (Simple.draw 5 0))
  /\ series (Simple.draw 5 0) <> [ {| label := "Present"; value := 5 |} ].
Proof.
  split; [lia|]. split; [reflexivity|]. split; [|discriminate].
  intros Hall. cbn in Hall.
  apply Forall_cons in Hall as [_ Hall]. apply Forall_cons in Hall as [Hz _].
  cbn in Hz. lia.
Qed.

(** ** Adding a student *)

Section Adding.
Context `{Platform}.

Lemma applyFilter_keeps `{Variant Student} f (st : State Student) :
  students (applyFilter f st) = students st
  /\ localStorage (applyFilter f st) = localStorage st.
Proof.
  unfold applyFilter, renderChart.
  destruct f; cbn;
    match goal with |- context [if ?b then _ else _] => destruct b end;
    split; reflexivity.
Qed.

(** C7.  With the same form and the same clock, and a name that is not
    empty once trimmed, each revision appends one record.  The two
    records have the same [id] (the time), the same [name] (the trimmed
    text) and the same [type] (the one of the form); the revision with
    a [uid] gives [attendance] the value Present, the other gives it
    Absent, so the record of the second is not the record of the first
    without its [uid]. *)
Theorem addStudent_defaults
    (rich : State Rich.Student) (simple : State Simple.Student) (w : World) :
  addForm rich = addForm simple ->
  String_trim (form_name (addForm rich)) <> "" ->
  exists (r : Rich.Student) (s : Simple.Student),
    students (Rich.addStudent rich w).1 = (students rich ++ [r])%list
    /\ students (Simple.addStudent simple w).1 = (students simple ++ [s])%list
    /\ Rich.id r = clock w 0%nat /\ Simple.id s = clock w 0%nat
    /\ Rich.name r = String_trim (form_name (addForm rich))
    /\ Simple.name s = String_trim (form_name (addForm rich))
    /\ Rich.type r = form_type (addForm rich)
    /\ Simple.type s = form_type (addForm rich)
    /\ Rich.attendance r = Present
    /\ Simple.attendance s = Absent
    /\ s = Simple.set_attendance Absent (erase_uid r)
    /\ s <> erase_uid r.
Proof.
  intros Hform Hname.
  unfold Rich.addStudent, Simple.addStudent. rewrite <- Hform.
  destruct (String_trim (form_name (addForm rich))) as [|c nm] eqn:E;
    [congruence|].
  eexists _, _. cbn [fst snd Date_now makeUID Math_random].
  cbn [fst]. rewrite !(proj1 (applyFilter_keeps _ _)). cbn.
  repeat split. discriminate.
Qed.

(** With a name that is empty once trimmed, neither revision adds. *)
Lemma addStudent_blank
    (rich : State Rich.Student) (simple : State Simple.Student) (w : World) :
  String_trim (form_name (addForm rich)) = "" ->
  String_trim (form_name (addForm simple)) = "" ->
  Rich.addStudent rich w = (rich, w) /\ Simple.addStudent simple w = (simple, w).
Proof.
  intros Er Es. unfold Rich.addStudent, Simple.addStudent.
  rewrite Er, Es. split; reflexivity.
Qed.
End Adding.

Lemma addStudent_defaults_witness :
  map Rich.attendance (students (Rich.addStudent Sample.rich_form Sample.noon).1)
  = [Present; Absent; Present; Present]
  /\ map Simple.attendance
       (students (Simple.addStudent Sample.simple_form Sample.noon).1)
     = [Absent].
Proof.
  destruct (addStudent_defaults Sample.rich_form Sample.simple_form Sample.noon)
    as (r & s & Hr & Hs & _ & _ & _ & _ & _ & _ & Har & Has & _);
    [reflexivity | vm_compute; discriminate |].
  rewrite Hr, Hs, !map_app. cbn [map]. rewrite Har, Has. split; reflexivity.
Defined.

(** ** The identifier generator *)

Section Identifiers.

Lemma length_append (s t : string) :
  String.length (s +:+ t) = (String.length s + String.length t)%nat.
Proof. induction s as [|c s IH]; simpl; [reflexivity|]. f_equal. exact IH. Qed.

Lemma length_substring (n m : nat) (s : string) :
  String.length (substring n m s) = Nat.min m (String.length s - n).
Proof.
  revert n m. induction s as [|c s IH]; intros [|n] [|m]; simpl; try reflexivity.
  - f_equal. rewrite IH. f_equal. lia.
  - apply IH.
  - apply IH.
Qed.

Lemma length_toUpperCase (s : string) :
  String.length (Js.toUpperCase s) = String.length s.
Proof. induction s as [|c s IH]; simpl; [reflexivity|]. f_equal. exact IH. Qed.

(** [s.slice(-4)] is the last four characters, or all of [s]. *)
Lemma length_slice_last4 (s : string) :
  String.length (Js.slice s (-4) None) = Nat.min 4 (String.length s).
Proof.
  unfold Js.slice, Js.clamp_index. rewrite length_substring. cbn [Z.ltb Z.compare].
  generalize (String.length s). intros len. lia.
Qed.

(** [s.slice(2, 6)] is what [s] has at the positions 2 to 5. *)
Lemma length_slice_2_6 (s : string) :
  String.length (Js.slice s 2 (Some 6))
  = Nat.min 4 (String.length s - 2).
Proof.
  unfold Js.slice, Js.clamp_index. rewrite length_substring. cbn [Z.ltb Z.compare].
  generalize (String.length s). intros len. lia.
Qed.

Lemma length_Float01 (x : Js.Float01) :
  (String.length (Js.Float01_toString36 x) - 2)%nat = String.length x.
Proof. destruct x; reflexivity. Qed.

(** The form and the length of every identifier: [STU-], then at most
    four characters of the time, then at most four of the random
    value. *)
Lemma makeUID_form (w : World) :
  (makeUID w).1
  = "STU-"
    +:+ Js.slice (Js.toUpperCase (Js.toString 36 (clock w 0%nat))) (-4) None
    +:+ Js.slice (Js.toUpperCase (Js.Float01_toString36 (entropy w 0%nat)))
          2 (Some 6).
Proof. reflexivity. Qed.

Lemma makeUID_length (w : World) :
  String.length (makeUID w).1
  = (4 + Nat.min 4 (String.length (Js.toString 36 (clock w 0%nat)))
     + Nat.min 4 (String.length (entropy w 0%nat)))%nat.
Proof.
  rewrite makeUID_form, !length_append, length_slice_last4, length_slice_2_6,
    !length_toUpperCase, length_Float01.
  cbn [String.length]. lia.
Qed.

Lemma digits_grows radix fuel n acc :
  (String.length acc <= String.length (Js.digits radix fuel n acc))%nat.
Proof.
  revert n acc. induction fuel as [|fuel IH]; intros n acc; cbn; [lia|].
  destruct (n / radix =? 0); cbn; [lia|].
  etrans; [|apply IH]. cbn. lia.
Qed.

Lemma digits_grows_S radix fuel n acc :
  (S (String.length acc)
   <= String.length (Js.digits radix (S fuel) n acc))%nat.
Proof.
  simpl. destruct (n / radix =? 0); [reflexivity|].
  etrans; [|apply digits_grows]. reflexivity.
Qed.

Lemma digits_step radix fuel n acc :
  n / radix <> 0 ->
  Js.digits radix (S fuel) n acc
  = Js.digits radix fuel (n / radix) (String (Js.digit (n mod radix)) acc).
Proof.
  intros Hn. cbn. destruct (Z.eqb_spec (n / radix) 0); [contradiction|reflexivity].
Qed.

(** From the year 1970 plus 47 seconds on, the time has four base-36
    digits or more. *)
Lemma toString36_long (n : Z) :
  36 ^ 3 <= n -> (4 <= String.length (Js.toString 36 n))%nat.
Proof.
  intros Hn. unfold Js.toString.
  destruct (Z.ltb_spec n 0); [lia|].
  rewrite Z.abs_eq by lia.
  assert (Hlog : 15 <= Z.log2 n).
  { apply Z.log2_le_pow2; lia. }
  destruct (Z.to_nat (Z.log2 n)) as [|[|[|[|fuel]]]] eqn:E; try lia.
  assert (H1 : n / 36 <> 0).
  { intros E0. apply Z.div_small_iff in E0; lia. }
  assert (H2 : n / 36 / 36 <> 0).
  { rewrite Z.div_div by lia. intros E0. apply Z.div_small_iff in E0; lia. }
  assert (H3 : n / 36 / 36 / 36 <> 0).
  { rewrite !Z.div_div by lia. intros E0. apply Z.div_small_iff in E0; lia. }
  rewrite !digits_step by assumption.
  etrans; [|apply digits_grows_S]. reflexivity.
Qed.

(** With such a time, and a random value of four base-36 digits or
    more, the identifier has twelve characters. *)
Lemma makeUID_length_typical (w : World) :
  36 ^ 3 <= clock w 0%nat ->
  (4 <= String.length (entropy w 0%nat))%nat ->
  String.length (makeUID w).1 = 12%nat.
Proof.
  intros Ht Hr. rewrite makeUID_length.
  pose proof (toString36_long _ Ht). lia.
Qed.

(** C8, at a random value with a short expansion.  When [Math.random]
    returns one half, which [toString(36)] prints as [0.i], the
    identifier is [STU-], four characters of the time and the single
    character [I]: nine characters, not twelve. *)
Theorem makeUID_half :
  (makeUID (world 1700000000000 ["i"])).1 = "STU-3V28I"
  /\ String.length (makeUID (world 1700000000000 ["i"])).1 = 9%nat.
Proof. split; vm_compute; reflexivity. Qed.

Example makeUID_noon : (makeUID Sample.noon).1 = "STU-3V28K3F9".
Proof. vm_compute. reflexivity. Qed.

Example makeUID_zero : (makeUID (world 1700000000000 [])).1 = "STU-3V28".
Proof. vm_compute. reflexivity. Qed.

End Identifiers.

(** ** Loading *)

Section Loading.
Context `{Platform}.
Implicit Type st : State Rich.Student.
Implicit Type l : list Rich.Student.

Lemma normalize_toJSON (s : Rich.Student) (w : World) :
  Rich.normalize (Rich.toJSON s) w = Returns (s, w).
Proof. destruct s as [i u n [] []]; reflexivity. Qed.

Lemma Array_map_normalize l (w : World) :
  Array_map Rich.normalize (map Rich.toJSON l) w = Returns (l, w).
Proof.
  induction l as [|s l IH]; [reflexivity|].
  cbn [map Array_map]. unfold bind at 1. rewrite normalize_toJSON.
  unfold bind at 1. rewrite IH. reflexivity.
Qed.

Lemma ensure_unique_distinct seen l (w : World) :
  NoDup (map Rich.uid l) ->
  (forall s, s ∈ l -> Rich.uid s ∉ seen) ->
  Rich.ensure_unique seen l w = (l, w).
Proof.
  revert seen. induction l as [|s l IH]; intros seen Hnd Hseen; [reflexivity|].
  cbn [map] in Hnd. apply NoDup_cons in Hnd as [Hs Hnd].
  cbn [Rich.ensure_unique].
  destruct (decide (Rich.uid s ∈ seen)) as [Hin|_].
  { exfalso. apply (Hseen s); [left|exact Hin]. }
  rewrite IH; [reflexivity|exact Hnd|].
  intros s' Hs' [Heq%elem_of_singleton|Hin]%elem_of_union.
  - apply Hs. rewrite <- Heq. apply list_elem_of_fmap. eauto.
  - apply (Hseen s'); [by right|exact Hin].
Qed.

(** A slot whose text parses to the objects of a list [l] of students
    with pairwise distinct [uid]s: [load] installs [l] and saves it,
    without a look at the clock or at the random source. *)
Lemma load_well_formed (raw : string) l st (w : World) :
  raw <> "" ->
  localStorage st = Some raw ->
  JSON_parse raw = Some (JArr (map Rich.toJSON l)) ->
  NoDup (map Rich.uid l) ->
  Rich.load st w = Returns (save (set_students l st), w).
Proof.
  intros Hne Hr Hparse Hnd. unfold Rich.load. rewrite Hr.
  destruct raw as [|c raw]; [congruence|].
  unfold bind at 1. rewrite Hparse. cbn [ret].
  unfold bind at 1. rewrite Array_map_normalize.
  unfold bind at 1, lift.
  rewrite ensure_unique_distinct; [reflexivity|exact Hnd|].
  intros s _. apply not_elem_of_empty.
Qed.

Lemma save_again st : save (set_students (students st) (save st)) = save st.
Proof. destruct st; reflexivity. Qed.

(** C2.  Let [records] be a list of students with pairwise distinct
    [uid]s that a component holds and saves, and let a page, whatever
    its own list is, find in its slot the text that [save] wrote.  If the
    platform reads back the text it printed for that list, [load] on
    that page returns, having touched neither the clock nor the random
    source, and the list of the page is now [records], exactly; the slot
    holds the same text as before and the rest of the page is as it
    was. *)
Theorem load_save_exact
    (records : list Rich.Student) (saved page : State Rich.Student) (w : World) :
  NoDup (map Rich.uid records) ->
  students saved = records ->
  localStorage page = localStorage (save saved) ->
  JSON_stringify (JArr (map toJSON records)) <> "" ->
  JSON_parse (JSON_stringify (JArr (map toJSON records)))
  = Some (JArr (map toJSON records)) ->
  exists page',
    Rich.load page w = Returns (page', w)
    /\ students page' = records
    /\ localStorage page' = localStorage (save saved)
    /\ page' = save (set_students records page).
Proof.
  intros Hnd Hsaved Hslot Hne Hparse. subst records.
  exists (save (set_students (students saved) page)).
  split; [|repeat split].
  apply (load_well_formed
           (JSON_stringify (JArr (map toJSON (students saved))))
           (students saved) page w Hne);
    [exact Hslot|exact Hparse|exact Hnd].
Qed.

(** What the pass over the identifiers achieves: with lucky draws, the
    identifiers it leaves are pairwise distinct and none was seen
    before. *)
Lemma ensure_unique_NoDup seen l (w : World) :
  lucky seen l w ->
  NoDup (map Rich.uid (Rich.ensure_unique seen l w).1)
  /\ (forall u, u ∈ map Rich.uid (Rich.ensure_unique seen l w).1 -> u ∉ seen).
Proof.
  revert seen w. induction l as [|s l IH]; intros seen w Hl.
  { split; [constructor|]. intros u Hu. by apply elem_of_nil in Hu. }
  cbn [lucky Rich.ensure_unique] in *.
  destruct (decide (Rich.uid s ∈ seen)) as [Hin|Hout].
  - destruct (makeUID w) as [u w'] eqn:Eu. destruct Hl as [Hu Hl].
    cbn [Rich.uid Rich.set_uid].
    destruct (IH _ _ Hl) as [Hnd Hfresh].
    destruct (Rich.ensure_unique ({[u]} ∪ seen) l w') as [rest w''] eqn:Er.
    cbn [fst map Rich.set_uid Rich.uid] in *. split.
    + apply NoDup_cons. split; [|exact Hnd].
      intros Hmem. apply (Hfresh _ Hmem).
      apply elem_of_union_l. by apply elem_of_singleton.
    + intros v [->|Hv]%elem_of_cons; [exact Hu|].
      intros Hvs. apply (Hfresh _ Hv). by apply elem_of_union_r.
  - destruct (IH _ _ Hl) as [Hnd Hfresh].
    destruct (Rich.ensure_unique ({[Rich.uid s]} ∪ seen) l w) as [rest w''] eqn:Er.
    cbn [fst map] in *. split.
    + apply NoDup_cons. split; [|exact Hnd].
      intros Hmem. apply (Hfresh _ Hmem).
      apply elem_of_union_l. by apply elem_of_singleton.
    + intros v [->|Hv]%elem_of_cons; [exact Hout|].
      intros Hvs. apply (Hfresh _ Hv). by apply elem_of_union_r.
Qed.

(** The same at the level of [load]: when the draws of the pass are
    lucky, the list it leaves has pairwise distinct identifiers. *)
Lemma load_distinct_when_lucky
    (raw : string) (items : list json) (normalized : list Rich.Student)
    st (w w1 : World) :
  raw <> "" ->
  localStorage st = Some raw ->
  JSON_parse raw = Some (JArr items) ->
  Array_map Rich.normalize items w = Returns (normalized, w1) ->
  lucky ∅ normalized w1 ->
  exists st' w2,
    Rich.load st w = Returns (st', w2)
    /\ NoDup (map Rich.uid (students st')).
Proof.
  intros Hne Hr Hparse Hmap Hl. unfold Rich.load. rewrite Hr.
  destruct raw as [|c raw]; [congruence|].
  unfold bind at 1. rewrite Hparse. cbn [ret].
  unfold bind at 1. rewrite Hmap.
  unfold bind at 1, lift.
  destruct (ensure_unique_NoDup ∅ normalized w1 Hl) as [Hnd _].
  destruct (Rich.ensure_unique ∅ normalized w1) as [unique w2].
  eexists _, _. split; [reflexivity|]. exact Hnd.
Qed.

(** C3, as the sources have it.  When the slot holds a text that is not
    empty and that [JSON.parse] rejects, [load] throws the [SyntaxError]
    in either revision: no list, empty or not, comes out of it. *)
Theorem load_unparseable
    (raw : string) (rich : State Rich.Student) (simple : State Simple.Student)
    (w : World) :
  raw <> "" ->
  JSON_parse raw = None ->
  localStorage rich = Some raw ->
  localStorage simple = Some raw ->
  Rich.load rich w = Throws SyntaxError
  /\ Simple.load simple = Throws SyntaxError.
Proof.
  intros Hne Hparse Hr Hs. unfold Rich.load, Simple.load. rewrite Hr, Hs.
  destruct raw as [|c raw]; [congruence|].
  unfold bind. rewrite Hparse. split; reflexivity.
Qed.

(** The absent slot and the empty text are the ones read as an empty
    list. *)
Lemma load_empty_slot (rich : State Rich.Student) (simple : State Simple.Student)
    (w : World) :
  localStorage rich = None \/ localStorage rich = Some "" ->
  localStorage simple = None \/ localStorage simple = Some "" ->
  Rich.load rich w = Returns (save (set_students [] rich), w)
  /\ Simple.load simple = Returns (set_students [] simple).
Proof.
  intros [Hr|Hr] [Hs|Hs]; unfold Rich.load, Simple.load; rewrite Hr, Hs;
    split; reflexivity.
Qed.

(** A text that parses, but not to an array, or to an array with a
    [null] in it, makes the richer [load] throw a [TypeError]. *)
Lemma load_not_an_array (raw : string) (v : json) st (w : World) :
  raw <> "" ->
  localStorage st = Some raw ->
  JSON_parse raw = Some v ->
  (forall items, v <> JArr items) ->
  Rich.load st w = Throws TypeError.
Proof.
  intros Hne Hr Hparse Hv. unfold Rich.load. rewrite Hr.
  destruct raw as [|c raw]; [congruence|].
  unfold bind. rewrite Hparse. cbn [ret].
  destruct v; try reflexivity. by destruct (Hv items).
Qed.

Lemma load_null_entry (raw : string) (items : list json) st (w : World) :
  raw <> "" ->
  localStorage st = Some raw ->
  JSON_parse raw = Some (JArr (JNull :: items)) ->
  Rich.load st w = Throws TypeError.
Proof.
  intros Hne Hr Hparse. unfold Rich.load. rewrite Hr.
  destruct raw as [|c raw]; [congruence|].
  unfold bind. rewrite Hparse. reflexivity.
Qed.
End Loading.

(** ** The reference platform reads back what it prints

    For every list of students, the reference reader returns the array
    that the reference printer was given: the assumption of the round
    trip above holds on this platform for all lists. *)

Section ReferenceCodec.
Import Reference.
Local Arguments String.append !_ _ / : simpl nomatch.

Lemma append_assoc (a b c : string) : (a +:+ b) +:+ c = a +:+ (b +:+ c).
Proof. induction a as [|x a IH]; simpl; [reflexivity|]. f_equal. exact IH. Qed.

Lemma read_chars_escape (c : ascii) (rest : string) :
  read_chars (escape c +:+ rest)
  = '(t, r) ← read_chars rest; Some (String c t, r).
Proof.
  destruct c as [[] [] [] [] [] [] [] []]; reflexivity.
Qed.

Lemma read_chars_escape_all (s rest : string) :
  read_chars (escape_all s +:+ String quote rest) = Some (s, rest).
Proof.
  induction s as [|c s IH]; [reflexivity|].
  cbn [escape_all]. rewrite append_assoc, read_chars_escape, IH. reflexivity.
Qed.
Lemma digit_value_digit (d : Z) :
  0 <= d <= 9 -> digit_value (Js.digit d) = Some d.
Proof.
  intros Hd.
  assert (d = 0 \/ d = 1 \/ d = 2 \/ d = 3 \/ d = 4 \/ d = 5 \/ d = 6 \/ d = 7
          \/ d = 8 \/ d = 9) as Hcases by lia.
  intuition subst; reflexivity.
Qed.

Lemma digits_acc radix fuel n acc rest :
  Js.digits radix fuel n acc +:+ rest = Js.digits radix fuel n (acc +:+ rest).
Proof.
  revert n acc. induction fuel as [|fuel IH]; intros n acc; [reflexivity|].
  simpl. destruct (n / radix =? 0); [reflexivity|]. rewrite IH. reflexivity.
Qed.

Lemma read_digits_digit d a acc :
  0 <= d <= 9 ->
  read_digits a (String (Js.digit d) acc) = read_digits (10 * a + d) acc.
Proof. intros Hd. simpl. rewrite digit_value_digit by exact Hd. reflexivity. Qed.

Lemma read_leading_digits fuel n acc :
  0 < n < 2 ^ Z.of_nat fuel ->
  read_leading (Js.digits 10 fuel n acc) = Some (read_digits n acc).
Proof.
  revert n acc. induction fuel as [|fuel IH]; intros n acc Hn.
  { change (2 ^ Z.of_nat 0) with 1 in Hn. lia. }
  assert (Hmod : 0 <= n mod 10 <= 9) by (pose proof (Z.mod_pos_bound n 10); lia).
  simpl Js.digits. destruct (Z.eqb_spec (n / 10) 0) as [Hq|Hq].
  - assert (Hsmall : n mod 10 = n).
    { apply Z.mod_small. apply Z.div_small_iff in Hq; lia. }
    rewrite Hsmall. unfold read_leading.
    rewrite digit_value_digit by lia.
    destruct (Z.eqb_spec n 0); [lia|reflexivity].
  - rewrite IH.
    + rewrite read_digits_digit by exact Hmod.
      do 2 f_equal. pose proof (Z.div_mod n 10). lia.
    + rewrite Nat2Z.inj_succ, Z.pow_succ_r in Hn by lia.
      split.
      * pose proof (Z.div_pos n 10). lia.
      * apply Z.div_lt_upper_bound; lia.
Qed.

Lemma digits_head fuel n acc :
  exists d r, 0 <= d <= 9 /\ Js.digits 10 (S fuel) n acc = String (Js.digit d) r.
Proof.
  revert n acc. induction fuel as [|fuel IH]; intros n acc.
  - exists (n mod 10), acc. split; [pose proof (Z.mod_pos_bound n 10); lia|].
    simpl. destruct (n / 10 =? 0); reflexivity.
  - change (Js.digits 10 (S (S fuel)) n acc)
      with (let acc' := String (Js.digit (n mod 10)) acc in
            if n / 10 =? 0 then acc' else Js.digits 10 (S fuel) (n / 10) acc').
    cbv zeta. destruct (n / 10 =? 0); [|apply IH].
    exists (n mod 10), acc. split; [pose proof (Z.mod_pos_bound n 10); lia|reflexivity].
Qed.

Lemma read_value_numeral fuel d r :
  0 <= d <= 9 ->
  read_value (S fuel) (String (Js.digit d) r)
  = '(n, rest) ← read_natural (String (Js.digit d) r); Some (JNum n, rest).
Proof.
  intros Hd.
  assert (d = 0 \/ d = 1 \/ d = 2 \/ d = 3 \/ d = 4 \/ d = 5 \/ d = 6 \/ d = 7
          \/ d = 8 \/ d = 9) as Hcases by lia.
  intuition subst; reflexivity.
Qed.

Lemma read_natural_digits n tail :
  0 < n ->
  read_natural (Js.digits 10 (S (Z.to_nat (Z.log2 n))) n (String "," tail))
  = Some (n, String "," tail).
Proof.
  intros Hn. unfold read_natural. rewrite read_leading_digits.
  - reflexivity.
  - split; [exact Hn|].
    rewrite Nat2Z.inj_succ, Z2Nat.id by apply Z.log2_nonneg.
    apply Z.log2_spec. exact Hn.
Qed.

Lemma read_value_number fuel n tail :
  read_value (S fuel) (Js.toString 10 n +:+ String "," tail)
  = Some (JNum n, String "," tail).
Proof.
  unfold Js.toString.
  destruct (Z.ltb_spec n 0) as [Hneg|Hpos].
  - rewrite Z.abs_neq by lia.
    change (String "-" ?b +:+ ?r) with (String "-" (b +:+ r)).
    rewrite digits_acc.
    change (read_value (S fuel) (String "-" ?x))
      with ('(m, rest) ← read_natural x; Some (JNum (- m), rest)).
    change ("" +:+ String "," tail) with (String "," tail).
    rewrite read_natural_digits by lia. cbn. by rewrite Z.opp_involutive.
  - rewrite Z.abs_eq by lia. rewrite digits_acc.
    change ("" +:+ String "," tail) with (String "," tail).
    destruct (Z.eq_dec n 0) as [->|Hnz]; [reflexivity|].
    destruct (digits_head (Z.to_nat (Z.log2 n)) n (String "," tail))
      as (d & r & Hd & E).
    rewrite E, read_value_numeral by exact Hd. rewrite <- E.
    rewrite read_natural_digits by lia. reflexivity.
Qed.

Lemma quoted_append s rest :
  quoted s +:+ rest = String quote (escape_all s +:+ String quote rest).
Proof. unfold quoted. simpl. by rewrite append_assoc. Qed.

Lemma read_value_string fuel s rest :
  read_value (S fuel) (quoted s +:+ rest) = Some (JStr s, rest).
Proof.
  rewrite quoted_append.
  change (read_value (S fuel) (String quote ?x))
    with ('(t, r) ← read_chars x; Some (JStr t, r)).
  rewrite read_chars_escape_all. reflexivity.
Qed.

Lemma read_members_more fuel k vtext v ms tail rest :
  read_value fuel (vtext +:+ String "," tail) = Some (v, String "," tail) ->
  read_members fuel tail = Some (ms, rest) ->
  read_members (S fuel) (quoted k +:+ ":" +:+ vtext +:+ String "," tail)
  = Some ((k, v) :: ms, rest).
Proof.
  intros Hv Hms. rewrite quoted_append.
  change (read_members (S fuel) (String quote ?x))
    with ('(k', r) ← read_chars x;
          match skip_ws r with
          | String ":" r =>
              '(v, r) ← read_value fuel r;
              match skip_ws r with
              | String "," r' =>
                  '(ms, rest) ← read_members fuel r'; Some ((k', v) :: ms, rest)
              | String "}" rest => Some ([(k', v)], rest)
              | _ => None
              end
          | _ => None
          end).
  rewrite read_chars_escape_all. cbn [mbind option_bind].
  change (skip_ws (":" +:+ ?x)) with (String ":" x).
  cbv iota beta. rewrite Hv. cbn [mbind option_bind].
  change (skip_ws (String "," tail)) with (String "," tail).
  cbv iota beta. rewrite Hms. reflexivity.
Qed.

Lemma read_members_last fuel k vtext v rest :
  read_value fuel (vtext +:+ String "}" rest) = Some (v, String "}" rest) ->
  read_members (S fuel) (quoted k +:+ ":" +:+ vtext +:+ String "}" rest)
  = Some ([(k, v)], rest).
Proof.
  intros Hv. rewrite quoted_append.
  change (read_members (S fuel) (String quote ?x))
    with ('(k', r) ← read_chars x;
          match skip_ws r with
          | String ":" r =>
              '(v, r) ← read_value fuel r;
              match skip_ws r with
              | String "," r' =>
                  '(ms, rest) ← read_members fuel r'; Some ((k', v) :: ms, rest)
              | String "}" rest => Some ([(k', v)], rest)
              | _ => None
              end
          | _ => None
          end).
  rewrite read_chars_escape_all. cbn [mbind option_bind].
  change (skip_ws (":" +:+ ?x)) with (String ":" x).
  cbv iota beta. rewrite Hv. reflexivity.
Qed.

Lemma stringify_student (s : Rich.Student) rest :
  stringify (Rich.toJSON s) +:+ rest
  = String "{"
      (quoted "id" +:+ ":" +:+ Js.toString 10 (Rich.id s) +:+ String ","
      (quoted "uid" +:+ ":" +:+ quoted (Rich.uid s) +:+ String ","
      (quoted "name" +:+ ":" +:+ quoted (Rich.name s) +:+ String ","
      (quoted "type" +:+ ":" +:+ quoted (Type_literal (Rich.type s)) +:+ String ","
      (quoted "attendance" +:+ ":" +:+ quoted (Att_literal (Rich.attendance s))
         +:+ String "}" rest))))).
Proof.
  unfold Rich.toJSON. cbn [stringify map commas fst snd].
  rewrite !append_assoc. reflexivity.
Qed.

Lemma read_value_object fuel k x :
  read_value (S fuel) (String "{" (quoted k +:+ x))
  = '(ms, rest) ← read_members fuel (quoted k +:+ x);
    Some (JObj (fold_left (fun acc m => put (fst m) (snd m) acc) ms []), rest).
Proof. rewrite quoted_append. reflexivity. Qed.

Lemma read_value_student fuel (s : Rich.Student) rest :
  read_value (S (S (S (S (S (S (S fuel))))))) (stringify (Rich.toJSON s) +:+ rest)
  = Some (Rich.toJSON s, rest).
Proof.
  rewrite stringify_student, read_value_object.
  erewrite read_members_more;
    [|apply read_value_number
     |erewrite read_members_more;
       [reflexivity|apply read_value_string
       |erewrite read_members_more;
         [reflexivity|apply read_value_string
         |erewrite read_members_more;
           [reflexivity|apply read_value_string
           |apply read_members_last; apply read_value_string]]]].
  reflexivity.
Qed.

Lemma commas_cons (x y : string) (r : list string) :
  commas (x :: y :: r) = x +:+ "," +:+ commas (y :: r).
Proof. reflexivity. Qed.

Lemma read_items_S (fuel : nat) (x : string) :
  read_items (S fuel) x
  = '(v, r) ← read_value fuel x;
    match skip_ws r with
    | String "," r' => '(vs, rest) ← read_items fuel r'; Some (v :: vs, rest)
    | String "]" rest => Some ([v], rest)
    | _ => None
    end.
Proof. reflexivity. Qed.

Lemma read_items_more (fuel : nat) (x r : string) (v : json) (vs : list json)
    (rest : string) :
  read_value fuel x = Some (v, String "," r) ->
  read_items fuel r = Some (vs, rest) ->
  read_items (S fuel) x = Some (v :: vs, rest).
Proof.
  intros Hv Hr. rewrite read_items_S, Hv. cbn [mbind option_bind].
  change (skip_ws (String "," r)) with (String "," r). cbv beta iota.
  rewrite Hr. reflexivity.
Qed.

Lemma read_items_last (fuel : nat) (x : string) (v : json) (rest : string) :
  read_value fuel x = Some (v, String "]" rest) ->
  read_items (S fuel) x = Some ([v], rest).
Proof. intros Hv. rewrite read_items_S, Hv. reflexivity. Qed.

Lemma read_items_students fuel (s : Rich.Student) (l : list Rich.Student) rest :
  (7 + length l <= fuel)%nat ->
  read_items (S fuel)
    (commas (map stringify (map Rich.toJSON (s :: l))) +:+ String "]" rest)
  = Some (map Rich.toJSON (s :: l), rest).
Proof.
  revert s fuel. induction l as [|s' l IH]; intros s fuel Hfuel.
  - do 7 (destruct fuel as [|fuel]; [cbn in Hfuel; lia|]).
    apply read_items_last. apply read_value_student.
  - do 8 (destruct fuel as [|fuel]; [cbn in Hfuel; lia|]).
    rewrite !map_cons, commas_cons, <- !map_cons, !append_assoc.
    eapply read_items_more.
    + apply (read_value_student _ s ("," +:+ _)).
    + apply IH. cbn [length] in Hfuel. lia.
Qed.

Lemma append_nil_r (s : string) : s +:+ "" = s.
Proof. induction s as [|c s IH]; simpl; [reflexivity|]. f_equal. exact IH. Qed.

Lemma length_commas (texts : list string) :
  Forall (fun t => (2 <= String.length t)%nat) texts ->
  (2 * length texts <= String.length (commas texts))%nat.
Proof.
  induction 1 as [|t texts Ht Hall IH]; [reflexivity|].
  destruct texts as [|t' texts].
  - cbn [commas length]. lia.
  - change (commas (t :: t' :: texts)) with (t +:+ "," +:+ commas (t' :: texts)).
    rewrite !length_append. cbn [length] in *. lia.
Qed.

Lemma length_student (s : Rich.Student) :
  (2 <= String.length (stringify (Rich.toJSON s)))%nat.
Proof.
  rewrite <- (append_nil_r (stringify (Rich.toJSON s))).
  rewrite stringify_student. cbn [String.length].
  rewrite !length_append. cbn [String.length]. lia.
Qed.

Lemma commas_students_head (s : Rich.Student) (l : list Rich.Student) rest :
  exists r,
    commas (map stringify (map Rich.toJSON (s :: l))) +:+ rest = String "{" r.
Proof.
  destruct l as [|s' l]; cbn [map].
  - cbn [commas]. rewrite stringify_student. eexists. reflexivity.
  - rewrite commas_cons, !append_assoc, stringify_student. eexists. reflexivity.
Qed.

Lemma parse_stringify_students (l : list Rich.Student) :
  stringify (JArr (map Rich.toJSON l)) <> ""
  /\ parse (stringify (JArr (map Rich.toJSON l))) = Some (JArr (map Rich.toJSON l)).
Proof.
  split; [discriminate|].
  destruct l as [|s l]; [reflexivity|].
  unfold parse.
  assert (Hlen : (2 * length (s :: l) + 2
                  <= String.length (stringify (JArr (map Rich.toJSON (s :: l)))))%nat).
  { cbn [stringify]. rewrite !length_append. cbn [String.length].
    pose proof (length_commas (map stringify (map Rich.toJSON (s :: l)))) as Hc.
    rewrite !length_map in Hc.
    specialize (Hc ltac:(apply Forall_forall; intros t Ht;
      apply list_elem_of_fmap in Ht as (j & -> & Hj);
      apply list_elem_of_fmap in Hj as (x & -> & _); apply length_student)).
    lia. }
  remember (2 * String.length (stringify (JArr (map Rich.toJSON (s :: l)))) + 2)%nat
    as fuel eqn:Efuel.
  assert (Hfuel : (9 + length l <= fuel)%nat) by (cbn [length] in Hlen; lia).
  clear Efuel Hlen.
  do 2 (destruct fuel as [|fuel]; [lia|]).
  cbn [stringify].
  change ("[" +:+ ?x +:+ "]") with (String "[" (x +:+ String "]" "")).
  change (read_value (S (S fuel)) (String "[" ?x))
    with (match skip_ws x with
          | String "]" rest => Some (JArr [], rest)
          | _ => '(items, rest) ← read_items (S fuel) x; Some (JArr items, rest)
          end).
  rewrite read_items_students by lia.
  destruct (commas_students_head s l (String "]" "")) as [r E].
  change ("]" : string) with (String "]" "") at 1. rewrite E. reflexivity.
Qed.

(** On the reference platform the round trip needs no assumption but the
    distinct identifiers. *)
Lemma load_save_reference (st : State Rich.Student) (w : World) :
  NoDup (map Rich.uid (students st)) ->
  Rich.load (save st) w = Returns (save st, w).
Proof.
  intros Hnd.
  destruct (parse_stringify_students (students st)) as [Hne Hparse].
  rewrite (load_well_formed _ (students st) (save st) w Hne);
    [|reflexivity|exact Hparse|exact Hnd].
  rewrite save_again. reflexivity.
Qed.
End ReferenceCodec.

(** ** Concrete runs of [load] on the reference platform *)

Lemma load_save_exact_witness :
  students Cases.fresh_page = []
  /\ exists page',
       Rich.load Cases.fresh_page Sample.noon = Returns (page', Sample.noon)
       /\ students page' = [Sample.alice; Sample.bob; Sample.carol].
Proof.
  split; [reflexivity|].
  destruct (load_save_exact [Sample.alice; Sample.bob; Sample.carol]
              Sample.roster Cases.fresh_page Sample.noon)
    as (page' & Hload & Hlist & _).
  - vm_compute. repeat constructor; set_unfold; intuition discriminate.
  - reflexivity.
  - vm_compute. reflexivity.
  - vm_compute. discriminate.
  - vm_compute. reflexivity.
  - exists page'. split; [exact Hload|exact Hlist].
Defined.

(** C1, at a collision.  The slot holds three records that share one
    [uid]; the clock does not advance during the call and the two random
    values drawn agree on their first four base-36 digits.  [load]
    returns, and the second and the third record of the list it leaves
    have the same [uid]. *)
Theorem load_collision :
  exists st',
    run (Rich.load Sample.triplets) Sample.noon = Returns st'
    /\ map Rich.uid (students st')
       = ["STU-3V29A1B2"; "STU-3V28K3F9"; "STU-3V28K3F9"]
    /\ ~ NoDup (map Rich.uid (students st')).
Proof.
  eexists. split; [vm_compute; reflexivity|].
  split; [reflexivity|].
  cbn [map students Rich.uid]. intros Hnd.
  apply NoDup_cons in Hnd as [_ Hnd]. apply NoDup_cons in Hnd as [Hnotin _].
  apply Hnotin. left.
Qed.

(** The text [{oops] in the slot: [load] throws in either revision. *)
Lemma load_garbled_throws :
  Sample.garbled <> ""
  /\ JSON_parse Sample.garbled = None
  /\ Rich.load Sample.rich_garbled Sample.noon = Throws SyntaxError
  /\ Simple.load Sample.simple_garbled = Throws SyntaxError
  /\ (forall st', run (Rich.load Sample.rich_garbled) Sample.noon <> Returns st')
  /\ (forall st', Simple.load Sample.simple_garbled <> Returns st').
Proof.
  split; [discriminate|]. split; [vm_compute; reflexivity|].
  split; [vm_compute; reflexivity|]. split; [vm_compute; reflexivity|].
  split; intros st'; vm_compute; discriminate.
Qed.

Lemma load_unparseable_witness :
  Rich.load Sample.rich_garbled Sample.noon = Throws SyntaxError
  /\ Simple.load Sample.simple_garbled = Throws SyntaxError.
Proof.
  apply (load_unparseable Sample.garbled Sample.rich_garbled
           Sample.simple_garbled Sample.noon).
  - discriminate.
  - vm_compute. reflexivity.
  - reflexivity.
  - reflexivity.
Defined.

(** ** The scenario of the specification, run *)

Example scenario_view :
  map Rich.name (filteredStudents Sample.scenario) = ["Bob"]
  /\ (totalCount Sample.scenario, presentCount Sample.scenario,
      absentCount Sample.scenario) = (1, 0, 1)%nat
  /\ donut Sample.scenario
     = Some {| series := [ {| label := "Absent"; value := 1 |} ];
               centerLabel := PercentPresent 0 1 |}
  /\ map Rich.attendance (students Sample.scenario) = [Present; Absent].
Proof. vm_compute. repeat split. Qed.

(** * The component as a whole *)

(** ** Filtering *)

Section Filtering.
Context `{Platform} {Student : Type} `{Variant Student}.
Implicit Type st : State Student.
Implicit Type l : list Student.

Lemma applyFilter_view f st :
  filteredStudents (applyFilter f st) = select f (students st).
Proof.
  unfold applyFilter, renderChart.
  destruct f; cbn;
    match goal with |- context [if ?b then _ else _] => destruct b end;
    reflexivity.
Qed.

Lemma applyFilter_filter f st : currentFilter (applyFilter f st) = f.
Proof.
  unfold applyFilter, renderChart.
  destruct f; cbn;
    match goal with |- context [if ?b then _ else _] => destruct b end;
    reflexivity.
Qed.

Lemma split_by_attendance l :
  filter (fun s => attendance_of s = Present) l
  ++ filter (fun s => attendance_of s = Absent) l ≡ₚ l.
Proof.
  induction l as [|s l IH]; [reflexivity|].
  rewrite !filter_cons.
  destruct (attendance_of s); repeat case_decide; try congruence.
  - cbn. by constructor.
  - rewrite <- Permutation_middle. by constructor.
Qed.

Lemma split_by_type l :
  filter (fun s => type_of s = School) l
  ++ filter (fun s => type_of s = College) l ≡ₚ l.
Proof.
  induction l as [|s l IH]; [reflexivity|].
  rewrite !filter_cons.
  destruct (type_of s); repeat case_decide; try congruence.
  - cbn. by constructor.
  - rewrite <- Permutation_middle. by constructor.
Qed.

Lemma select_sublist f l : select f l `sublist_of` l.
Proof. destruct f; cbn; [reflexivity|apply sublist_filter..]. Qed.

(** X1.  The views of the filters.  [All] shows the list itself.  The
    views of Present and of Absent, put end to end, are a rearrangement
    of the list, and so are the views of School and of College: each
    record is in exactly one view of the pair.  Every view is the list
    with records struck out, in the order of the list. *)
Theorem applyFilter_partition st :
  filteredStudents (applyFilter All st) = students st
  /\ filteredStudents (applyFilter (ByAttendance Present) st)
     ++ filteredStudents (applyFilter (ByAttendance Absent) st)
     ≡ₚ students st
  /\ filteredStudents (applyFilter (ByType School) st)
     ++ filteredStudents (applyFilter (ByType College) st)
     ≡ₚ students st
  /\ (forall f, filteredStudents (applyFilter f st) `sublist_of` students st)
  /\ (forall a s, s ∈ filteredStudents (applyFilter (ByAttendance a) st)
                  <-> s ∈ students st /\ attendance_of s = a)
  /\ (forall t s, s ∈ filteredStudents (applyFilter (ByType t) st)
                  <-> s ∈ students st /\ type_of s = t).
Proof.
  rewrite !applyFilter_view. split; [reflexivity|].
  split; [apply split_by_attendance|]. split; [apply split_by_type|].
  split; [intros f; rewrite applyFilter_view; apply select_sublist|].
  split; intros x s; rewrite applyFilter_view; cbn;
    rewrite list_elem_of_filter; tauto.
Qed.

End Filtering.

(** ** What every operation keeps *)

Section Invariants.
Context `{Platform} {Student : Type} `{Variant Student}.
Implicit Type st : State Student.
Implicit Type l : list Student.

Lemma rederived_applyFilter f st : rederived (applyFilter f st).
Proof.
  unfold rederived, applyFilter, renderChart.
  destruct f; cbn;
    destruct (viewReady st) eqn:Hready, (anchor st) eqn:Hanchor; cbn;
    rewrite <- !count_filter; repeat split; intros; congruence.
Qed.

Lemma rederived_openEdit s st : rederived st -> rederived (openEdit s st).
Proof. intros Hst. exact Hst. Qed.

Lemma rederived_cancelEdit st : rederived st -> rederived (cancelEdit st).
Proof. intros Hst. exact Hst. Qed.

Lemma rederived_fire st : rederived st -> rederived (fire st).
Proof.
  intros Hst. unfold fire. destruct (timers st) as [|[d []] rest]; exact Hst.
Qed.

Lemma rederived_saveEdit st : rederived st -> rederived (saveEdit st).
Proof.
  intros Hst. unfold saveEdit. destruct (editModel st) as [model|]; [|exact Hst].
  apply rederived_cancelEdit.
  destruct (findIndex (id_of model) (students st)); [|exact Hst].
  apply rederived_applyFilter.
Qed.

Lemma persisted_applyFilter f st : persisted st -> persisted (applyFilter f st).
Proof.
  unfold persisted. intros Hst.
  destruct (applyFilter_keeps f st) as [-> ->]. exact Hst.
Qed.

Lemma persisted_save st : persisted (save st).
Proof. reflexivity. Qed.

Lemma persisted_fire st : persisted st -> persisted (fire st).
Proof.
  unfold persisted. intros Hst. destruct (fire_keeps st) as [-> ->]. exact Hst.
Qed.

Lemma persisted_saveEdit st : persisted st -> persisted (saveEdit st).
Proof.
  intros Hst. unfold saveEdit. destruct (editModel st) as [model|]; [|exact Hst].
  destruct (findIndex (id_of model) (students st)).
  - change (persisted (applyFilter (currentFilter st)
                         (save (set_students (<[n:=model]> (students st)) st)))).
    apply persisted_applyFilter, persisted_save.
  - exact Hst.
Qed.

(** X2.  What is on screen follows from the list, and no operation
    breaks that: if the view is the selection of the current filter, the
    counters count the view and the chart, where it can be drawn, shows
    the counters, then the same holds after [applyFilter], [clearFilter],
    [deleteStudent] (confirmed or not), [openEdit], [cancelEdit],
    [saveEdit], [onAttendanceChange] and after a timer has run.  The
    three operations that change the list keep the current filter. *)
Theorem operations_rederive st :
  rederived st ->
  (forall f, rederived (applyFilter f st))
  /\ rederived (clearFilter st)
  /\ (forall c id, rederived (deleteStudent c id st)
                   /\ currentFilter (deleteStudent c id st) = currentFilter st)
  /\ (forall s, rederived (openEdit s st))
  /\ rederived (cancelEdit st)
  /\ (rederived (saveEdit st) /\ currentFilter (saveEdit st) = currentFilter st)
  /\ (forall s a, rederived (onAttendanceChange s a st)
                  /\ currentFilter (onAttendanceChange s a st) = currentFilter st)
  /\ rederived (fire st).
Proof.
  intros Hst.
  split; [intros f; apply rederived_applyFilter|].
  split; [apply rederived_applyFilter|].
  split.
  { intros [] id; cbn [deleteStudent negb]; [|split; [exact Hst|reflexivity]].
    split; [apply rederived_applyFilter|apply applyFilter_filter]. }
  split; [intros s; apply rederived_openEdit, Hst|].
  split; [apply rederived_cancelEdit, Hst|].
  split.
  { split; [apply rederived_saveEdit, Hst|].
    unfold saveEdit. destruct (editModel st) as [model|]; [|reflexivity].
    destruct (findIndex (id_of model) (students st)); [|reflexivity].
    cbn [cancelEdit set_timers set_modalClosing currentFilter].
    apply applyFilter_filter. }
  split; [|apply rederived_fire, Hst].
  intros s a. unfold onAttendanceChange.
  destruct (findIndex (id_of s) (students st)); [|split; [exact Hst|reflexivity]].
  split; [apply rederived_applyFilter|apply applyFilter_filter].
Qed.

(** X3.  The slot follows the list, and no operation breaks that: if the
    slot holds the text of the list, it still does after each of the
    operations above.  The operations that change the list write the
    slot themselves; those that do not leave both alone. *)
Theorem operations_persist st :
  persisted st ->
  (forall f, persisted (applyFilter f st))
  /\ persisted (clearFilter st)
  /\ (forall c id, persisted (deleteStudent c id st))
  /\ (forall s, persisted (openEdit s st))
  /\ persisted (cancelEdit st)
  /\ persisted (saveEdit st)
  /\ (forall s a, persisted (onAttendanceChange s a st))
  /\ persisted (fire st)
  /\ (forall id, persisted (deleteStudent true id (set_localStorage None st))).
Proof.
  intros Hst.
  split; [intros f; apply persisted_applyFilter, Hst|].
  split; [apply persisted_applyFilter, Hst|].
  split.
  { intros [] id; cbn [deleteStudent negb]; [|exact Hst].
    apply persisted_applyFilter, persisted_save. }
  split; [intros s; exact Hst|].
  split; [exact Hst|].
  split; [apply persisted_saveEdit, Hst|].
  split.
  { intros s a. unfold onAttendanceChange.
    destruct (findIndex (id_of s) (students st)); [|exact Hst].
    apply persisted_applyFilter, persisted_save. }
  split; [apply persisted_fire, Hst|].
  intros id. cbn [deleteStudent negb].
  apply persisted_applyFilter, persisted_save.
Qed.

End Invariants.

Lemma operations_rederive_witness :
  rederived (saveEdit Cases.editing_robert)
  /\ rederived (deleteStudent true 1700000000002 Cases.editing_robert).
Proof.
  assert (Hst : rederived Cases.editing_robert).
  { unfold rederived. vm_compute. repeat split. }
  destruct (operations_rederive Cases.editing_robert Hst)
    as (_ & _ & Hd & _ & _ & [Hs _] & _).
  split; [exact Hs|]. apply Hd.
Defined.

Lemma operations_persist_witness :
  persisted (saveEdit Cases.editing_robert)
  /\ persisted (onAttendanceChange Sample.carol Absent Cases.editing_robert).
Proof.
  assert (Hst : persisted Cases.editing_robert).
  { unfold persisted. vm_compute. reflexivity. }
  destruct (operations_persist Cases.editing_robert Hst)
    as (_ & _ & _ & _ & _ & Hs & Ha & _).
  split; [exact Hs|]. apply Ha.
Defined.

(** ** Editing, toggling and deleting *)

Section Editing.
Context `{Platform} {Student : Type} `{Variant Student}.
Implicit Type st : State Student.
Implicit Type l : list Student.

Lemma findIndex_Some id l i :
  findIndex id l = Some i
  <-> exists x, l !! i = Some x /\ id_of x = id
                /\ forall j y, l !! j = Some y -> (j < i)%nat -> id_of y <> id.
Proof.
  unfold findIndex. split.
  - intros Hfind. apply fmap_Some in Hfind as ([j x] & Hfind & ->).
    apply list_find_Some in Hfind. exists x. exact Hfind.
  - intros (x & Hx). apply fmap_Some. exists (i, x). split; [|reflexivity].
    apply list_find_Some. exact Hx.
Qed.

(** Changing the list twice in a row, each time saving and deriving the
    view again, leaves what the second change alone would leave. *)
Lemma resync_absorb l1 l2 st :
  applyFilter (currentFilter st)
    (save (set_students l2
             (applyFilter (currentFilter st) (save (set_students l1 st)))))
  = applyFilter (currentFilter st) (save (set_students l2 st)).
Proof.
  destruct st as [l v f t p a form sh cl em ready slot anc d tm].
  unfold applyFilter, renderChart, save.
  destruct f; cbn; destruct ready, anc; reflexivity.
Qed.

(** X4.  [saveEdit] that finds its record.  With a working copy whose
    [id] is carried by a record of the list, the first such record, and
    no other, is replaced by the copy: the list keeps its length and all
    its other records.  The new list is saved, the modal starts closing,
    and once the timers have run the working copy is gone. *)
Theorem saveEdit_commit (model old : Student) (i : nat) st :
  editModel st = Some model ->
  students st !! i = Some old ->
  id_of old = id_of model ->
  (forall j y, students st !! j = Some y -> (j < i)%nat ->
               id_of y <> id_of model) ->
  let st' := saveEdit st in
  students st' = <[i := model]> (students st)
  /\ length (students st') = length (students st)
  /\ students st' !! i = Some model
  /\ (forall j, j <> i -> students st' !! j = students st !! j)
  /\ persisted st'
  /\ modalClosing st' = true
  /\ editModel (Nat.iter (length (timers st')) fire st') = None.
Proof.
  intros Hm Hi Hid Hfirst. cbv zeta.
  assert (Hfind : findIndex (id_of model) (students st) = Some i).
  { apply findIndex_Some. eauto. }
  assert (Hst : students (saveEdit st) = <[i := model]> (students st)).
  { unfold saveEdit. rewrite Hm, Hfind.
    cbn [cancelEdit set_timers set_modalClosing students].
    by rewrite (proj1 (applyFilter_keeps _ _)). }
  rewrite Hst. split; [reflexivity|].
  split; [apply length_insert|].
  split; [apply list_lookup_insert_eq; by eapply lookup_lt_Some|].
  split; [intros j Hj; by apply list_lookup_insert_ne|].
  split.
  { unfold persisted. rewrite Hst. unfold saveEdit. rewrite Hm, Hfind.
    cbn [cancelEdit set_timers set_modalClosing localStorage].
    by rewrite (proj2 (applyFilter_keeps _ _)). }
  split; [unfold saveEdit; by rewrite Hm, Hfind|].
  apply drain_closes.
  unfold saveEdit. rewrite Hm, Hfind. cbn [cancelEdit set_timers timers].
  intros E. by apply app_eq_nil in E as [_ ?].
Qed.

(** X5.  Opening the modal and cancelling it is a round trip: from a
    state with no modal and no timer pending, [openEdit], [cancelEdit]
    and the timer of [cancelEdit] lead back to that very state.  The
    list, the view and the slot were never touched. *)
Theorem openEdit_cancelEdit (s : Student) st :
  editModel st = None ->
  showEditModal st = false ->
  modalClosing st = false ->
  timers st = [] ->
  fire (cancelEdit (openEdit s st)) = st
  /\ students (openEdit s st) = students st
  /\ filteredStudents (openEdit s st) = filteredStudents st
  /\ localStorage (openEdit s st) = localStorage st.
Proof.
  intros He Hs Hc Ht. split; [|repeat split].
  destruct st as [l v f t p a form sh cl em ready slot anc d tm].
  cbn in *. subst. reflexivity.
Qed.

(** X6.  Saving a working copy that was not changed changes no record:
    when the [id]s of the list are pairwise distinct and the modal was
    opened on a record of the list, [saveEdit] leaves the list as it
    was. *)
Theorem saveEdit_unchanged (s : Student) st :
  s ∈ students st ->
  NoDup (map id_of (students st)) ->
  students (saveEdit (openEdit s st)) = students st.
Proof.
  intros Hin Hnd.
  apply list_elem_of_lookup in Hin as [i Hi].
  unfold saveEdit. cbn [openEdit editModel set_showEditModal set_editModel students].
  destruct (findIndex (id_of s) (students st)) as [j|] eqn:Hfind.
  - apply findIndex_Some in Hfind as (x & Hj & Hid & _).
    assert (j = i) as ->.
    { apply (NoDup_lookup _ _ _ (id_of s) Hnd);
        rewrite list_lookup_fmap; [rewrite Hj|rewrite Hi]; cbn; congruence. }
    cbn [cancelEdit set_timers set_modalClosing students].
    rewrite (proj1 (applyFilter_keeps _ _)). cbn.
    by apply list_insert_id.
  - reflexivity.
Qed.

Lemma filter_swap (a b : Z) l :
  filter (fun s => id_of s <> a) (filter (fun s => id_of s <> b) l)
  = filter (fun s => id_of s <> b) (filter (fun s => id_of s <> a) l).
Proof.
  induction l as [|s l IH]; [reflexivity|].
  rewrite !filter_cons.
  destruct (decide (id_of s <> b)), (decide (id_of s <> a));
    rewrite ?filter_cons; repeat case_decide; try contradiction; congruence.
Qed.

Lemma filter_again (a : Z) l :
  filter (fun s => id_of s <> a) (filter (fun s => id_of s <> a) l)
  = filter (fun s => id_of s <> a) l.
Proof.
  induction l as [|s l IH]; [reflexivity|].
  rewrite !filter_cons.
  destruct (decide (id_of s <> a));
    rewrite ?filter_cons; repeat case_decide; try contradiction; congruence.
Qed.

Lemma deleteStudent_once (a : Z) st :
  deleteStudent true a st
  = applyFilter (currentFilter st)
      (save (set_students (filter (fun s => id_of s <> a) (students st)) st)).
Proof. unfold deleteStudent. reflexivity. Qed.

Lemma deleteStudent_twice (a b : Z) st :
  deleteStudent true a (deleteStudent true b st)
  = applyFilter (currentFilter st)
      (save (set_students
               (filter (fun s => id_of s <> a)
                       (filter (fun s => id_of s <> b) (students st))) st)).
Proof.
  unfold deleteStudent. cbn [negb].
  cbn [save set_students set_localStorage currentFilter students].
  rewrite applyFilter_filter, (proj1 (applyFilter_keeps _ _)).
  cbn [students]. apply resync_absorb.
Qed.

(** X7.  Deletions compose.  Deleting the same [id] twice leaves the
    state that deleting it once leaves, and deleting two [id]s leaves
    the same state in either order: the list, the slot, the view, the
    counters and the chart. *)
Theorem deleteStudent_compose (a b : Z) st :
  deleteStudent true a (deleteStudent true a st) = deleteStudent true a st
  /\ deleteStudent true a (deleteStudent true b st)
     = deleteStudent true b (deleteStudent true a st).
Proof.
  rewrite !deleteStudent_twice. split.
  - rewrite filter_again. symmetry. apply deleteStudent_once.
  - rewrite filter_swap. reflexivity.
Qed.

End Editing.

Lemma saveEdit_commit_witness :
  map Rich.name (students (saveEdit Cases.editing_robert))
  = ["Alice"; "Robert"; "Carol"].
Proof.
  destruct (saveEdit_commit Cases.robert Sample.bob 1 Cases.editing_robert)
    as (Hs & _); [reflexivity|reflexivity|reflexivity| |].
  - intros j y Hj Hlt. destruct j as [|[|j]]; [|lia..].
    vm_compute in Hj. injection Hj as <-. vm_compute. discriminate.
  - rewrite Hs. reflexivity.
Defined.

Lemma openEdit_cancelEdit_witness :
  fire (cancelEdit (openEdit Sample.bob Sample.roster)) = Sample.roster.
Proof.
  apply (openEdit_cancelEdit Sample.bob Sample.roster); reflexivity.
Defined.

Lemma saveEdit_unchanged_witness :
  students (saveEdit (openEdit Sample.carol Sample.roster))
  = students Sample.roster.
Proof.
  apply (saveEdit_unchanged Sample.carol Sample.roster).
  - vm_compute. do 2 right. left.
  - vm_compute. repeat constructor; set_unfold; intuition discriminate.
Defined.

(** ** The attendance toggle *)

Section Toggling.
Context `{Platform}.

Lemma findIndex_alter `{Variant Student} (g : Student -> Student) id i
    (l : list Student) :
  (forall s, id_of (g s) = id_of s) ->
  findIndex id (alter g i l) = findIndex id l.
Proof.
  intros Hg. unfold findIndex. revert i.
  induction l as [|x l IH]; intros [|i]; try reflexivity.
  - cbn. rewrite Hg. destruct (decide (id_of x = id)); reflexivity.
  - cbn. destruct (decide (id_of x = id)); [reflexivity|].
    specialize (IH i).
    destruct (list_find _ (alter g i l)) as [[? ?]|],
             (list_find _ l) as [[? ?]|]; cbn in *; congruence.
Qed.

Lemma alter_again {A} (g : A -> A) (i : nat) (l : list A) :
  (forall x, g (g x) = g x) -> alter g i (alter g i l) = alter g i l.
Proof.
  intros Hg. revert i. induction l as [|x l IH]; intros [|i]; try reflexivity.
  - cbn. by rewrite Hg.
  - cbn. f_equal. apply IH.
Qed.

Lemma onAttendanceChange_hit {Student : Type} {V : Variant Student}
    (student old : Student) (att : Att) (i : nat) (st : State Student) :
  students st !! i = Some old ->
  id_of old = id_of student ->
  (forall j y, students st !! j = Some y -> (j < i)%nat ->
               id_of y <> id_of student) ->
  onAttendanceChange student att st
  = applyFilter (currentFilter st)
      (save (set_students (alter (assign_attendance att) i (students st)) st)).
Proof.
  intros Hi Hid Hfirst. unfold onAttendanceChange.
  replace (findIndex (id_of student) (students st)) with (Some i);
    [reflexivity|].
  symmetry. apply findIndex_Some. eauto.
Qed.

Lemma onAttendanceChange_again `{Variant Student}
    (student : Student) (att : Att) (st : State Student) :
  (forall a s, id_of (assign_attendance a s) = id_of s) ->
  (forall a s, assign_attendance a (assign_attendance a s) = assign_attendance a s) ->
  onAttendanceChange student att (onAttendanceChange student att st)
  = onAttendanceChange student att st.
Proof.
  intros Hid Hidem.
  destruct (findIndex (id_of student) (students st)) as [i|] eqn:Hfind.
  - assert (Hone : onAttendanceChange student att st
                   = applyFilter (currentFilter st)
                       (save (set_students
                                (alter (assign_attendance att) i (students st)) st))).
    { unfold onAttendanceChange. rewrite Hfind. reflexivity. }
    rewrite Hone. unfold onAttendanceChange at 1.
    rewrite (proj1 (applyFilter_keeps _ _)). cbn [save set_localStorage
      set_students students].
    rewrite findIndex_alter, Hfind by apply Hid.
    change (currentFilter (save (set_students ?l ?x))) with (currentFilter x).
    rewrite applyFilter_filter.
    rewrite alter_again by apply Hidem.
    apply (resync_absorb _ _ st).
  - unfold onAttendanceChange. rewrite Hfind. cbn. rewrite Hfind. reflexivity.
Qed.

(** X8.  [onAttendanceChange] that finds its record, in the revision
    with a [uid].  The first record of the list that carries the [id] of
    the student gets the new attendance and keeps its [id], [uid], [name]
    and [type]; every other record, and the length of the list, stay.
    Whether the record stays in the view is decided by the current
    filter, and the new list is what the slot holds. *)
Theorem rich_onAttendanceChange_hit
    (student old : Rich.Student) (att : Att) (i : nat)
    (st : State Rich.Student) :
  students st !! i = Some old ->
  Rich.id old = Rich.id student ->
  (forall j y, students st !! j = Some y -> (j < i)%nat ->
               Rich.id y <> Rich.id student) ->
  let st' := onAttendanceChange student att st in
  students st' !! i
  = Some {| Rich.id := Rich.id old; Rich.uid := Rich.uid old;
            Rich.name := Rich.name old; Rich.type := Rich.type old;
            Rich.attendance := att |}
  /\ (forall j, j <> i -> students st' !! j = students st !! j)
  /\ length (students st') = length (students st)
  /\ filteredStudents st' = select (currentFilter st) (students st')
  /\ persisted st'.
Proof.
  intros Hi Hid Hfirst. cbv zeta.
  rewrite (onAttendanceChange_hit (V := Rich.variant)
             student old att i st Hi Hid Hfirst).
  rewrite applyFilter_view.
  unfold persisted. rewrite !(proj1 (applyFilter_keeps _ _)),
    (proj2 (applyFilter_keeps _ _)).
  cbn [save set_localStorage set_students students localStorage].
  split; [by rewrite list_lookup_alter_eq, Hi|].
  split; [intros j Hj; by apply list_lookup_alter_ne|].
  split; [apply length_alter|]. split; reflexivity.
Qed.

(** X9.  The toggle is idempotent in both revisions: choosing the same
    attendance for the same student a second time changes nothing, in
    the list, in the slot, in the view or in the chart. *)
Theorem onAttendanceChange_idempotent :
  (forall (student : Rich.Student) att (st : State Rich.Student),
      onAttendanceChange student att (onAttendanceChange student att st)
      = onAttendanceChange student att st)
  /\ (forall (student : Simple.Student) att (st : State Simple.Student),
         onAttendanceChange student att (onAttendanceChange student att st)
         = onAttendanceChange student att st).
Proof.
  split; intros student att st; apply onAttendanceChange_again; reflexivity.
Qed.

End Toggling.

Lemma rich_onAttendanceChange_hit_witness :
  map Rich.attendance
      (students (onAttendanceChange Sample.alice Absent Sample.roster))
  = [Absent; Absent; Present].
Proof.
  destruct (rich_onAttendanceChange_hit Sample.alice Sample.alice Absent 0
              Sample.roster) as (H0 & Hrest & Hlen & _);
    [reflexivity|reflexivity|intros j y _ Hlt; lia|].
  pose proof (Hrest 1%nat ltac:(lia)) as H1.
  pose proof (Hrest 2%nat ltac:(lia)) as H2.
  destruct (students (onAttendanceChange Sample.alice Absent Sample.roster))
    as [|a [|b [|c [|d rest]]]]; try discriminate.
  cbn in H0, H1, H2. injection H0 as ->. injection H1 as ->. injection H2 as ->.
  reflexivity.
Defined.

(** ** Adding, once more *)

Section AddingMore.
Context `{Platform}.

Lemma rich_addStudent_eq (st : State Rich.Student) (w : World) :
  String_trim (form_name (addForm st)) <> "" ->
  Rich.addStudent st w
  = (applyFilter (currentFilter st)
       (set_addForm blank_form
          (save (set_students
                   (students st
                    ++ [ {| Rich.id := clock w 0%nat;
                            Rich.uid := (makeUID (Date_now w).2).1;
                            Rich.name := String_trim (form_name (addForm st));
                            Rich.type := form_type (addForm st);
                            Rich.attendance := Present |} ]) st))),
     (makeUID (Date_now w).2).2).
Proof.
  intros Hname. unfold Rich.addStudent.
  destruct (String_trim (form_name (addForm st))) as [|c nm]; [congruence|].
  reflexivity.
Qed.

Lemma simple_addStudent_eq (st : State Simple.Student) (w : World) :
  String_trim (form_name (addForm st)) <> "" ->
  Simple.addStudent st w
  = (applyFilter (currentFilter st)
       (set_addForm blank_form
          (save (set_students
                   (students st
                    ++ [ {| Simple.id := clock w 0%nat;
                            Simple.name := String_trim (form_name (addForm st));
                            Simple.type := form_type (addForm st);
                            Simple.attendance := Absent |} ]) st))),
     (Date_now w).2).
Proof.
  intros Hname. unfold Simple.addStudent.
  destruct (String_trim (form_name (addForm st))) as [|c nm]; [congruence|].
  reflexivity.
Qed.

Lemma deleteStudent_students `{Variant Student} (id : Z) (st : State Student) :
  students (deleteStudent true id st)
  = filter (fun s => id_of s <> id) (students st).
Proof.
  unfold deleteStudent. cbn [negb].
  by rewrite (proj1 (applyFilter_keeps _ _)).
Qed.

Lemma filter_snoc_out {A} (P : A -> Prop) `{!forall x, Decision (P x)}
    (l : list A) (x : A) :
  ~ P x -> filter P (l ++ [x])%list = filter P l.
Proof.
  intros Hx. rewrite filter_app, filter_cons, filter_nil.
  destruct (decide (P x)); [contradiction|]. apply app_nil_r.
Qed.

(** X10.  [addStudent] with a name that is not empty once trimmed, in
    either revision: the list grows by one record, the new list is
    saved, the view and the counters are derived again under the filter
    that was current, which stays, and the form is reset.  The new record
    is not shown when the filter asks for the attendance that the
    revision does not give: Absent in the revision with a [uid], Present
    in the other. *)
Theorem addStudent_resyncs
    (rich : State Rich.Student) (simple : State Simple.Student) (w : World) :
  String_trim (form_name (addForm rich)) <> "" ->
  String_trim (form_name (addForm simple)) <> "" ->
  let rich' := (Rich.addStudent rich w).1 in
  let simple' := (Simple.addStudent simple w).1 in
  (length (students rich') = S (length (students rich))
   /\ rederived rich' /\ persisted rich'
   /\ currentFilter rich' = currentFilter rich
   /\ addForm rich' = blank_form
   /\ (currentFilter rich = ByAttendance Absent ->
       filteredStudents rich'
       = filter (fun s => Rich.attendance s = Absent) (students rich)))
  /\ (length (students simple') = S (length (students simple))
      /\ rederived simple' /\ persisted simple'
      /\ currentFilter simple' = currentFilter simple
      /\ addForm simple' = blank_form
      /\ (currentFilter simple = ByAttendance Present ->
          filteredStudents simple'
          = filter (fun s => Simple.attendance s = Present) (students simple))).
Proof.
  intros Hr Hs. cbv zeta.
  rewrite (rich_addStudent_eq rich w Hr), (simple_addStudent_eq simple w Hs).
  cbn [fst]. split.
  - split.
    { rewrite (proj1 (applyFilter_keeps _ _)). cbn [set_addForm save
        set_localStorage set_students students]. rewrite length_app. cbn. lia. }
    split; [apply rederived_applyFilter|].
    split; [apply persisted_applyFilter; reflexivity|].
    split; [apply applyFilter_filter|].
    split.
    { unfold applyFilter, renderChart.
      destruct (currentFilter rich); cbn;
        match goal with |- context [if ?b then _ else _] => destruct b end;
        reflexivity. }
    intros Hf. rewrite applyFilter_view, Hf.
    cbn [select set_addForm save set_localStorage set_students students].
    apply (filter_snoc_out (fun s : Rich.Student => Rich.attendance s = Absent)).
    discriminate.
  - split.
    { rewrite (proj1 (applyFilter_keeps _ _)). cbn [set_addForm save
        set_localStorage set_students students]. rewrite length_app. cbn. lia. }
    split; [apply rederived_applyFilter|].
    split; [apply persisted_applyFilter; reflexivity|].
    split; [apply applyFilter_filter|].
    split.
    { unfold applyFilter, renderChart.
      destruct (currentFilter simple); cbn;
        match goal with |- context [if ?b then _ else _] => destruct b end;
        reflexivity. }
    intros Hf. rewrite applyFilter_view, Hf.
    cbn [select set_addForm save set_localStorage set_students students].
    apply (filter_snoc_out (fun s : Simple.Student => Simple.attendance s = Present)).
    discriminate.
Qed.

(** X11.  Two students added within one millisecond get the same [id]:
    [addStudent] takes the [id] from the clock and compares it with
    nothing.  In the revision with a [uid], where each call reads the
    clock twice, the two records then stand or fall together: deleting
    the one deletes the other. *)
Theorem addStudent_same_millisecond
    (st : State Rich.Student) (w : World) (first second : AddForm) :
  String_trim (form_name first) <> "" ->
  String_trim (form_name second) <> "" ->
  clock w 0%nat = clock w 2%nat ->
  let one := Rich.addStudent (set_addForm first st) w in
  let two := Rich.addStudent (set_addForm second one.1) one.2 in
  exists r1 r2,
    students two.1 = (students st ++ [r1; r2])%list
    /\ Rich.name r1 = String_trim (form_name first)
    /\ Rich.name r2 = String_trim (form_name second)
    /\ Rich.id r1 = Rich.id r2
    /\ students (deleteStudent true (Rich.id r2) two.1)
       = filter (fun s => Rich.id s <> Rich.id r2) (students st).
Proof.
  intros H1 H2 Hclock. cbv zeta.
  rewrite (rich_addStudent_eq (set_addForm first st) w) by exact H1.
  cbn [fst snd].
  rewrite (rich_addStudent_eq _ _) by exact H2.
  cbn [fst]. eexists _, _.
  split.
  { rewrite (proj1 (applyFilter_keeps _ _)).
    cbn [set_addForm save set_localStorage set_students students].
    rewrite (proj1 (applyFilter_keeps _ _)).
    cbn [set_addForm save set_localStorage set_students students].
    rewrite <- app_assoc. reflexivity. }
  split; [reflexivity|]. split; [reflexivity|].
  split; [cbn; exact Hclock|].
  rewrite deleteStudent_students.
  rewrite (proj1 (applyFilter_keeps _ _)).
  cbn [set_addForm save set_localStorage set_students students].
  rewrite (proj1 (applyFilter_keeps _ _)).
  cbn [set_addForm save set_localStorage set_students students Rich.id].
  rewrite <- app_assoc, filter_app. cbn [app].
  assert (Hsame : clock (makeUID (Date_now w).2).2 0%nat = clock w 2%nat)
    by reflexivity.
  rewrite !filter_cons, filter_nil.
  destruct (decide _) as [Hne|_];
    [exfalso; apply Hne; cbn [id_of Rich.variant Rich.id]; congruence|].
  destruct (decide _) as [Hne|_];
    [exfalso; apply Hne; reflexivity|].
  apply app_nil_r.
Qed.

End AddingMore.

Lemma addStudent_resyncs_witness :
  map Rich.name (students (Rich.addStudent Cases.dave_form Cases.still).1)
  = ["Alice"; "Bob"; "Carol"; "Dave"]
  /\ persisted (Rich.addStudent Cases.dave_form Cases.still).1
  /\ addForm (Simple.addStudent Sample.simple_form Cases.still).1 = blank_form.
Proof.
  destruct (addStudent_resyncs Cases.dave_form Sample.simple_form Cases.still)
    as [(_ & _ & Hp & _) (_ & _ & _ & _ & Hf & _)];
    [vm_compute; discriminate..|].
  split; [vm_compute; reflexivity|]. split; [exact Hp|exact Hf].
Defined.

Lemma addStudent_same_millisecond_witness :
  exists r1 r2,
    students (Rich.addStudent
                (set_addForm Sample.form
                   (Rich.addStudent Cases.dave_form Cases.still).1)
                (Rich.addStudent Cases.dave_form Cases.still).2).1
    = (students Sample.roster ++ [r1; r2])%list
    /\ Rich.id r1 = Rich.id r2.
Proof.
  destruct (addStudent_same_millisecond Sample.roster Cases.still
              {| form_name := "Dave"; form_type := School |} Sample.form)
    as (r1 & r2 & Hs & _ & _ & Hid & _);
    [vm_compute; discriminate..|reflexivity|].
  exists r1, r2. split; [exact Hs|exact Hid].
Defined.

(** ** Loading, once more *)

Section LoadingMore.
Context `{Platform}.
Implicit Type st : State Rich.Student.
Implicit Type l : list Rich.Student.

Lemma is_literal_true (p : option json) (lit : string) :
  is_literal p lit = true <-> p = Some (JStr lit).
Proof.
  unfold is_literal. destruct p as [[]|]; try (split; congruence).
  rewrite String.eqb_eq. split; congruence.
Qed.

(** X12.  The entry-by-entry migration of [load] is permissive.  For an
    entry that is not [null] and whose [id], [uid] and [name], where
    present and not [null], have the type the interface declares, it
    returns a student: the [id], [uid] and [name] of the entry where it
    has them, else the time for the [id] and the empty text for the
    [name]; the type is College for the literal ["College"] alone and
    School for everything else, the attendance is Absent for the literal
    ["Absent"] alone and Present for everything else. *)
Theorem normalize_permissive (s : json) (w : World) :
  s <> JNull ->
  (forall v, get s "id" = Some v -> v = JNull \/ exists n, v = JNum n) ->
  (forall v, get s "uid" = Some v -> v = JNull \/ exists t, v = JStr t) ->
  (forall v, get s "name" = Some v -> v = JNull \/ exists t, v = JStr t) ->
  exists r w',
    Rich.normalize s w = Returns (r, w')
    /\ Rich.id r = match get s "id" with Some (JNum n) => n | _ => clock w 0%nat end
    /\ (forall t, get s "uid" = Some (JStr t) -> Rich.uid r = t)
    /\ Rich.name r = match get s "name" with Some (JStr t) => t | _ => "" end
    /\ (Rich.type r = College <-> get s "type" = Some (JStr "College"))
    /\ (Rich.attendance r = Absent <-> get s "attendance" = Some (JStr "Absent")).
Proof.
  intros Hs Hid Huid Hname.
  assert (Hbody : Rich.normalize s w
    = (i <- match get s "id" with
            | None | Some JNull => lift Date_now
            | Some (JNum n) => ret n
            | Some _ => off_interface
            end ;;
       u <- match get s "uid" with
            | None | Some JNull => lift makeUID
            | Some (JStr t) => ret t
            | Some _ => off_interface
            end ;;
       n <- match get s "name" with
            | None | Some JNull => ret ""
            | Some (JStr t) => ret t
            | Some _ => off_interface
            end ;;
       ret {| Rich.id := i; Rich.uid := u; Rich.name := n;
              Rich.type := if is_literal (get s "type") "College"
                           then College else School;
              Rich.attendance := if is_literal (get s "attendance") "Absent"
                                 then Absent else Present |})%js w).
  { destruct s; [contradiction|reflexivity..]. }
  rewrite Hbody. clear Hbody.
  assert (Hty : forall b : bool,
             (if b then College else School) = College <-> b = true)
    by (intros []; split; congruence).
  assert (Hat : forall b : bool,
             (if b then Absent else Present) = Absent <-> b = true)
    by (intros []; split; congruence).
  destruct (get s "id") as [vi|];
    [destruct (Hid vi eq_refl) as [->|[n ->]]|];
    (destruct (get s "uid") as [vu|];
       [destruct (Huid vu eq_refl) as [->|[u ->]]|]);
    (destruct (get s "name") as [vn|];
       [destruct (Hname vn eq_refl) as [->|[nm ->]]|]);
    eexists _, _; (split; [reflexivity|]);
    cbn [Rich.id Rich.uid Rich.name Rich.type Rich.attendance];
    rewrite Hty, Hat, !is_literal_true;
    repeat split; try reflexivity; try tauto; intros; congruence.
Qed.

Lemma ensure_unique_length seen l (w : World) :
  length (Rich.ensure_unique seen l w).1 = length l.
Proof.
  revert seen w. induction l as [|s l IH]; intros seen w; [reflexivity|].
  cbn [Rich.ensure_unique].
  destruct (decide (Rich.uid s ∈ seen)).
  - destruct (makeUID w) as [u w1]. specialize (IH ({[Rich.uid (Rich.set_uid u s)]} ∪ seen) w1).
    destruct (Rich.ensure_unique _ l w1) as [rest w2]. cbn in *. by rewrite IH.
  - specialize (IH ({[Rich.uid s]} ∪ seen) w).
    destruct (Rich.ensure_unique _ l w) as [rest w2]. cbn in *. by rewrite IH.
Qed.

(** X13.  The pass over the identifiers changes identifiers only.  It
    returns as many records as it was given, each with the [id], [name],
    [type] and [attendance] it had; and a record is returned as it was
    given when its [uid] was not seen before the pass and is the [uid]
    of no record returned before it. *)
Theorem ensure_unique_uids_only (seen : gset string) l (w : World) :
  let r := (Rich.ensure_unique seen l w).1 in
  length r = length l
  /\ map erase_uid r = map erase_uid l
  /\ (forall i s,
        l !! i = Some s ->
        Rich.uid s ∉ seen ->
        (forall j s', (j < i)%nat -> r !! j = Some s' -> Rich.uid s' <> Rich.uid s) ->
        r !! i = Some s).
Proof.
  cbv zeta. split; [apply ensure_unique_length|].
  revert seen w. induction l as [|s0 l IH]; intros seen w.
  { split; [reflexivity|]. intros i s Hi. by rewrite lookup_nil in Hi. }
  cbn [Rich.ensure_unique].
  destruct (decide (Rich.uid s0 ∈ seen)) as [Hin|Hout].
  - destruct (makeUID w) as [u w1].
    destruct (IH ({[Rich.uid (Rich.set_uid u s0)]} ∪ seen) w1) as [IH1 IH2].
    destruct (Rich.ensure_unique _ l w1) as [rest w2]. cbn [fst] in *.
    split; [cbn [map]; rewrite IH1; reflexivity|].
    intros [|i] s Hi Hs Hbefore; cbn in Hi.
    + injection Hi as <-. contradiction.
    + cbn. apply IH2; [exact Hi| |].
      * intros [Heq%elem_of_singleton|Hseen]%elem_of_union; [|contradiction].
        apply (Hbefore 0%nat (Rich.set_uid u s0)); [lia|reflexivity|].
        symmetry. exact Heq.
      * intros j s' Hj Hs'. apply (Hbefore (S j) s'); [lia|exact Hs'].
  - destruct (IH ({[Rich.uid s0]} ∪ seen) w) as [IH1 IH2].
    destruct (Rich.ensure_unique _ l w) as [rest w2]. cbn [fst] in *.
    split; [cbn [map]; rewrite IH1; reflexivity|].
    intros [|i] s Hi Hs Hbefore; cbn in Hi.
    + injection Hi as <-. reflexivity.
    + cbn. apply IH2; [exact Hi| |].
      * intros [Heq%elem_of_singleton|Hseen]%elem_of_union; [|contradiction].
        apply (Hbefore 0%nat s0); [lia|reflexivity|].
        symmetry. exact Heq.
      * intros j s' Hj Hs'. apply (Hbefore (S j) s'); [lia|exact Hs'].
Qed.

End LoadingMore.

Lemma normalize_permissive_witness :
  exists r w',
    Rich.normalize Cases.sparse Cases.still = Returns (r, w')
    /\ Rich.name r = "Zed" /\ Rich.type r = School /\ Rich.attendance r = Present
    /\ Rich.id r = 1700000000000.
Proof.
  destruct (normalize_permissive Cases.sparse Cases.still)
    as (r & w' & Hr & Hid & _ & Hname & Hty & Hat).
  - discriminate.
  - intros v Hv. vm_compute in Hv. discriminate.
  - intros v Hv. vm_compute in Hv. discriminate.
  - intros v Hv. vm_compute in Hv. injection Hv as <-. right. by eexists.
  - exists r, w'. split; [exact Hr|]. split; [exact Hname|].
    split.
    { destruct (Rich.type r); [reflexivity|].
      destruct Hty as [Hty _]. specialize (Hty eq_refl).
      vm_compute in Hty. discriminate. }
    split; [|exact Hid].
    destruct (Rich.attendance r); [reflexivity|].
    destruct Hat as [Hat _]. specialize (Hat eq_refl).
    vm_compute in Hat. discriminate.
Defined.

Section LoadShape.
Context `{Platform}.
Implicit Type st : State Rich.Student.
Implicit Type l : list Rich.Student.

Lemma Array_map_shape (items : list json) l (w w' : World) :
  Array_map Rich.normalize items w = Returns (l, w') ->
  length l = length items /\ JNull ∉ items.
Proof.
  revert l w w'. induction items as [|a items IH]; intros l w w' Hmap.
  { injection Hmap as <- _. split; [reflexivity|apply not_elem_of_nil]. }
  cbn [Array_map] in Hmap. unfold bind at 1 in Hmap.
  destruct (Rich.normalize a w) as [[b w1]| |] eqn:Ea; try discriminate.
  unfold bind at 1 in Hmap.
  destruct (Array_map Rich.normalize items w1) as [[bs w2]| |] eqn:Eb;
    try discriminate.
  injection Hmap as <- _. destruct (IH _ _ _ Eb) as [Hlen Hnull].
  split; [cbn; by rewrite Hlen|].
  intros [Ha|Hin]%elem_of_cons; [|contradiction].
  subst a. discriminate.
Qed.

Lemma load_returns (st st' : State Rich.Student) (w w' : World) :
  Rich.load st w = Returns (st', w') ->
  exists l,
    st' = save (set_students l st)
    /\ ((l = [] /\ (localStorage st = None \/ localStorage st = Some ""))
        \/ exists raw items,
             localStorage st = Some raw /\ raw <> ""
             /\ JSON_parse raw = Some (JArr items)
             /\ length l = length items /\ JNull ∉ items).
Proof.
  unfold Rich.load. intros Hload.
  destruct (localStorage st) as [[|c raw]|] eqn:Eslot.
  - injection Hload as <- _. exists []. split; [reflexivity|]. left. tauto.
  - unfold bind at 1 in Hload.
    destruct (JSON_parse (String c raw)) as [v|] eqn:Eparse; [|discriminate].
    cbn [ret] in Hload. destruct v; try discriminate.
    unfold bind at 1 in Hload.
    destruct (Array_map Rich.normalize items w) as [[normalized w1]| |] eqn:Emap;
      try discriminate.
    unfold bind at 1, lift in Hload.
    pose proof (ensure_unique_length ∅ normalized w1) as Hlen.
    destruct (Rich.ensure_unique ∅ normalized w1) as [unique w2].
    injection Hload as <- _. exists unique. split; [reflexivity|]. right.
    exists (String c raw), items. destruct (Array_map_shape _ _ _ _ Emap) as [Hl Hn].
    repeat split; try assumption; try discriminate. cbn in Hlen. congruence.
  - injection Hload as <- _. exists []. split; [reflexivity|]. left. tauto.
Qed.

(** X14.  What a [load] that returns has done.  The text of the slot, if
    there was one, parsed to an array without a [null] in it, and the
    list has one record for each entry of that array; with no text the
    list is empty.  The list has been written
    back to the slot.  The view, the counters and the filter are as they
    were: [load] leaves them to [applyFilter]. *)
Theorem load_returns_shape (st st' : State Rich.Student) (w w' : World) :
  Rich.load st w = Returns (st', w') ->
  persisted st'
  /\ filteredStudents st' = filteredStudents st
  /\ currentFilter st' = currentFilter st
  /\ (totalCount st', presentCount st', absentCount st')
     = (totalCount st, presentCount st, absentCount st)
  /\ ((students st' = []
       /\ (localStorage st = None \/ localStorage st = Some ""))
      \/ exists raw items,
           localStorage st = Some raw /\ raw <> ""
           /\ JSON_parse raw = Some (JArr items)
           /\ length (students st') = length items /\ JNull ∉ items).
Proof.
  intros Hload. apply load_returns in Hload as (l & -> & Hshape).
  repeat split. exact Hshape.
Qed.

(** X15.  The first entry to run into trouble decides: an array whose
    entries before a [null] are all migrated makes [load] throw a
    [TypeError], wherever the [null] stands, and nothing is written. *)
Theorem load_null_anywhere
    (raw : string) (before after : list json) st (w : World) :
  raw <> "" ->
  localStorage st = Some raw ->
  JSON_parse raw = Some (JArr (before ++ JNull :: after)) ->
  (exists l w1, Array_map Rich.normalize before w = Returns (l, w1)) ->
  Rich.load st w = Throws TypeError.
Proof.
  intros Hne Hr Hparse (l & w1 & Hbefore). unfold Rich.load. rewrite Hr.
  destruct raw as [|c raw]; [congruence|].
  unfold bind at 1. rewrite Hparse. cbn [ret].
  assert (Hmap : Array_map Rich.normalize (before ++ JNull :: after) w
                 = Throws TypeError).
  { clear Hparse Hr. revert l w w1 Hbefore.
    induction before as [|a before IH]; intros l w w1 Hbefore; [reflexivity|].
    cbn [app Array_map] in *. unfold bind at 1 in Hbefore. unfold bind at 1.
    destruct (Rich.normalize a w) as [[b w2]| |]; try discriminate.
    unfold bind at 1 in Hbefore. unfold bind at 1.
    destruct (Array_map Rich.normalize before w2) as [[bs w3]| |] eqn:Eb;
      try discriminate.
    by rewrite (IH _ _ _ Eb). }
  unfold bind at 1. rewrite Hmap. reflexivity.
Qed.

End LoadShape.

Lemma load_returns_shape_witness :
  exists st',
    run (Rich.load Sample.triplets) Sample.noon = Returns st'
    /\ persisted st' /\ length (students st') = 3%nat.
Proof.
  destruct (Rich.load Sample.triplets Sample.noon) as [[st' w']| |] eqn:E;
    [|vm_compute in E; discriminate..].
  exists st'. split; [unfold run; by rewrite E|].
  destruct (load_returns_shape _ _ _ _ E) as (Hp & _ & _ & _ & Hshape).
  split; [exact Hp|].
  destruct Hshape as [[_ [Hs|Hs]]|(raw & items & Hraw & _ & Hparse & Hlen & _)];
    [vm_compute in Hs; discriminate..|].
  rewrite Hlen. vm_compute in Hraw. injection Hraw as <-.
  vm_compute in Hparse. injection Hparse as <-. reflexivity.
Defined.

Lemma load_null_anywhere_witness :
  Rich.load Cases.nulled Cases.still = Throws TypeError.
Proof.
  apply (load_null_anywhere "[{}, null, 3]" [JObj []] [JNum 3]).
  - discriminate.
  - reflexivity.
  - vm_compute. reflexivity.
  - eexists _, _. vm_compute. reflexivity.
Defined.

(** ** Start-up *)

Section StartUp.
Context `{Platform}.

(** X17.  Start-up of the revision with a [uid].  When [ngOnInit]
    returns, the filter is [All], the view is the whole list, the
    counters count it and the slot holds it; nothing was drawn, the view
    not being ready.  [ngAfterViewInit] then draws, if the container is
    there, the chart of the whole list. *)
Theorem rich_startup (st st1 : State Rich.Student) (w w1 : World) :
  viewReady st = false ->
  Rich.ngOnInit st w = Returns (st1, w1) ->
  currentFilter st1 = All
  /\ filteredStudents st1 = students st1
  /\ rederived st1
  /\ persisted st1
  /\ donut st1 = donut st
  /\ viewReady (Rich.ngAfterViewInit st1) = true
  /\ students (Rich.ngAfterViewInit st1) = students st1
  /\ (anchor st = true ->
      donut (Rich.ngAfterViewInit st1)
      = Some (Rich.draw (count Present (students st1))
                        (count Absent (students st1)))).
Proof.
  intros Hready Hinit. unfold Rich.ngOnInit, bind in Hinit.
  destruct (Rich.load st w) as [[st0 w0]| |] eqn:Hload; try discriminate.
  injection Hinit as <- <-.
  apply load_returns in Hload as (l & -> & _).
  split; [apply applyFilter_filter|].
  split; [by rewrite applyFilter_view, (proj1 (applyFilter_keeps _ _))|].
  split; [apply rederived_applyFilter|].
  split; [apply persisted_applyFilter, persisted_save|].
  destruct st as [l0 v f t p a form sh cl em ready slot anc d tm].
  cbn in Hready. subst ready.
  split; [reflexivity|].
  unfold Rich.ngAfterViewInit, applyFilter, renderChart.
  destruct anc; cbn; rewrite <- ?count_filter; repeat split; intros;
    congruence.
Qed.

(** X18.  Start-up of the revision without a [uid].  There is one hook:
    when [ngOnInit] returns the view is ready, the filter is [All], the
    view is the whole list, and the chart of the whole list is drawn if
    the container is there.  The slot was read and not written. *)
Theorem simple_startup (st st1 : State Simple.Student) :
  Simple.ngOnInit st = Returns st1 ->
  viewReady st1 = true
  /\ currentFilter st1 = All
  /\ filteredStudents st1 = students st1
  /\ rederived st1
  /\ localStorage st1 = localStorage st
  /\ (anchor st = true ->
      donut st1
      = Some (Simple.draw (count Present (students st1))
                          (count Absent (students st1)))).
Proof.
  unfold Simple.ngOnInit. intros Hinit.
  destruct (Simple.load st) as [st0| |] eqn:Hload; try discriminate.
  injection Hinit as <-.
  assert (Hst0 : exists l, st0 = set_students l st).
  { unfold Simple.load in Hload.
    destruct (localStorage st) as [[|c raw]|];
      [injection Hload as <-; by eexists
      |
      |injection Hload as <-; by eexists].
    destruct (JSON_parse (String c raw)) as [v|]; [|discriminate].
    destruct (Simple.as_Students v) as [l|]; [|discriminate].
    injection Hload as <-. by eexists. }
  destruct Hst0 as [l ->].
  destruct st as [l0 v f t p a form sh cl em ready slot anc d tm].
  clear Hload. unfold rederived, applyFilter, renderChart. cbn.
  destruct ready, anc; cbn; rewrite <- !count_filter; repeat split; intros;
    congruence.
Qed.

End StartUp.

Section SelfHealing.
Context `{Platform}.

(** X19.  The slot heals itself.  When a [load] has returned a list with
    pairwise distinct [uid]s, a page that finds in its slot the text
    this [load] left, whatever the page holds itself, loads that very
    list, with no look at the clock or at the random source, and leaves
    the text in the slot; all this on a platform that reads back the
    text it printed for the list. *)
Theorem load_twice (st st' page : State Rich.Student) (w w' w2 : World) :
  Rich.load st w = Returns (st', w') ->
  NoDup (map Rich.uid (students st')) ->
  localStorage page = localStorage st' ->
  JSON_stringify (JArr (map toJSON (students st'))) <> "" ->
  JSON_parse (JSON_stringify (JArr (map toJSON (students st'))))
  = Some (JArr (map toJSON (students st'))) ->
  exists page',
    Rich.load page w2 = Returns (page', w2)
    /\ students page' = students st'
    /\ localStorage page' = localStorage st'.
Proof.
  intros Hload Hnd Hslot Hne Hparse.
  apply load_returns in Hload as (l & -> & _).
  exists (save (set_students l page)). split; [|split; reflexivity].
  apply (load_well_formed (JSON_stringify (JArr (map toJSON l))) l page w2);
    [exact Hne|exact Hslot|exact Hparse|exact Hnd].
Qed.

End SelfHealing.

Lemma rich_startup_witness :
  exists st1,
    run (Rich.ngOnInit Cases.fresh_page) Cases.still = Returns st1
    /\ map Rich.name (filteredStudents st1) = ["Alice"; "Bob"; "Carol"]
    /\ donut st1 = None
    /\ donut (Rich.ngAfterViewInit st1)
       = Some {| series := [ {| label := "Present"; value := 2 |};
                             {| label := "Absent"; value := 1 |} ];
                 centerLabel := PercentPresent 2 3 |}.
Proof.
  destruct (Rich.ngOnInit Cases.fresh_page Cases.still) as [[st1 w1]| |] eqn:E;
    [|vm_compute in E; discriminate..].
  exists st1. split; [unfold run; by rewrite E|].
  destruct (rich_startup Cases.fresh_page st1 Cases.still w1 eq_refl E)
    as (_ & _ & _ & _ & Hd & _).
  vm_compute in E. injection E as <- _.
  split; [reflexivity|]. split; [exact Hd|]. vm_compute. reflexivity.
Defined.

Lemma simple_startup_witness :
  exists st1,
    Simple.ngOnInit Cases.simple_page = Returns st1
    /\ viewReady st1 = true
    /\ map Simple.name (filteredStudents st1) = ["Ann"; "Ben"].
Proof.
  destruct (Simple.ngOnInit Cases.simple_page) as [st1| |] eqn:E;
    [|vm_compute in E; discriminate..].
  exists st1. split; [reflexivity|].
  destruct (simple_startup Cases.simple_page st1 E) as (Hr & _).
  split; [exact Hr|].
  vm_compute in E. injection E as <-. reflexivity.
Defined.

Lemma load_twice_witness :
  exists st' page',
    run (Rich.load Cases.twins_page) Sample.noon = Returns st'
    /\ map Rich.uid (students st') = ["STU-3V29A1B2"; "STU-3V28K3F9"]
    /\ Rich.load (initial (localStorage st')) Cases.still
       = Returns (page', Cases.still)
    /\ students page' = students st'.
Proof.
  destruct (Rich.load Cases.twins_page Sample.noon) as [[st' w']| |] eqn:E;
    [|vm_compute in E; discriminate..].
  destruct (load_twice Cases.twins_page st' (initial (localStorage st'))
              Sample.noon w' Cases.still E)
    as (page' & Hload & Hlist & _).
  - vm_compute in E. injection E as <- _.
    vm_compute. repeat constructor; set_unfold; intuition discriminate.
  - reflexivity.
  - vm_compute in E. injection E as <- _. vm_compute. discriminate.
  - vm_compute in E. injection E as <- _. vm_compute. reflexivity.
  - exists st', page'. split; [unfold run; by rewrite E|].
    split; [vm_compute in E; injection E as <- _; reflexivity|].
    split; [exact Hload|exact Hlist].
Defined.

(** ** The chart and the identifiers, once more *)

Section ChartTotals.

Lemma rich_draw_cases (p a : nat) :
  Rich.draw p a
  = if (p + a =? 0)%nat then {| series := []; centerLabel := NoData |}
    else {| series := Rich.data p a;
            centerLabel := PercentPresent p (p + a) |}.
Proof. reflexivity. Qed.

(** X20.  The chart accounts for every record of the view.  In both
    revisions the values of the series add up to the two counters
    together, the labels come in the order Present, Absent, and the text
    in the middle is the one for no data exactly when both counters are
    zero, the percentage of the present otherwise.  With both counters
    at zero the revision with a [uid] has no slice at all. *)
Theorem chart_totals (p a : nat) :
  series_sum (series (Rich.draw p a)) = (p + a)%nat
  /\ series_sum (series (Simple.draw p a)) = (p + a)%nat
  /\ map label (series (Rich.draw p a)) `sublist_of` ["Present"; "Absent"]
  /\ map label (series (Simple.draw p a)) = ["Present"; "Absent"]
  /\ (centerLabel (Rich.draw p a)
      = if (p + a =? 0)%nat then NoData else PercentPresent p (p + a))
  /\ (centerLabel (Simple.draw p a)
      = if (p + a =? 0)%nat then NoData else PercentPresent p (p + a))
  /\ ((p + a = 0)%nat -> series (Rich.draw p a) = []).
Proof.
  rewrite rich_draw_cases.
  split.
  { destruct (Nat.eqb_spec (p + a) 0) as [Hz|Hnz]; [cbn; lia|].
    cbn [series]. rewrite rich_data_cases.
    repeat case_decide; cbn; lia. }
  split; [cbn; lia|].
  split.
  { destruct (p + a =? 0)%nat; cbn [series map]; [apply sublist_nil_l|].
    rewrite rich_data_cases.
    repeat case_decide; cbn;
      repeat first [apply sublist_nil_l | apply sublist_skip | apply sublist_cons]. }
  split; [reflexivity|].
  split; [destruct (p + a =? 0)%nat; reflexivity|].
  split; [unfold Simple.draw; cbn; destruct (p + a =? 0)%nat; reflexivity|].
  intros Hz. apply Nat.eqb_eq in Hz. rewrite Hz. reflexivity.
Qed.

End ChartTotals.

Section IdentifierShape.

Lemma upper_ascii_not_lower (c : ascii) : ~ lower_case (Js.upper_ascii c).
Proof.
  unfold lower_case.
  destruct c as [[] [] [] [] [] [] [] []]; vm_compute; lia.
Qed.

Lemma in_append (c : ascii) (s t : string) :
  In c (list_ascii_of_string (s +:+ t))
  -> In c (list_ascii_of_string s) \/ In c (list_ascii_of_string t).
Proof.
  induction s as [|x s IH]; [by right|].
  change (String x s +:+ t) with (String x (s +:+ t)).
  cbn [list_ascii_of_string In]. intros [->|Hin]; [left; by left|].
  destruct (IH Hin); [left; by right|by right].
Qed.

Lemma in_substring (c : ascii) (n m : nat) (s : string) :
  In c (list_ascii_of_string (substring n m s)) -> In c (list_ascii_of_string s).
Proof.
  revert n m. induction s as [|x s IH]; intros [|n] [|m]; simpl;
    try tauto.
  - intros [->|Hin]; [by left|right; by apply (IH 0%nat m)].
  - intros Hin. right. by apply (IH n 0%nat).
  - intros Hin. right. by apply (IH n (S m)).
Qed.

Lemma in_toUpperCase (c : ascii) (s : string) :
  In c (list_ascii_of_string (Js.toUpperCase s)) -> ~ lower_case c.
Proof.
  induction s as [|x s IH]; simpl; [tauto|].
  intros [<-|Hin]; [apply upper_ascii_not_lower|by apply IH].
Qed.

Lemma in_slice_upper (c : ascii) (s : string) (start : Z) (end_ : option Z) :
  In c (list_ascii_of_string (Js.slice (Js.toUpperCase s) start end_))
  -> ~ lower_case c.
Proof.
  unfold Js.slice. intros Hin. apply in_substring in Hin.
  by apply in_toUpperCase in Hin.
Qed.

Lemma toString_nonempty (radix n : Z) :
  (1 <= String.length (Js.toString radix n))%nat.
Proof.
  unfold Js.toString. destruct (n <? 0).
  - simpl. apply le_n_S, Nat.le_0_l.
  - apply (digits_grows_S radix _ (Z.abs n) "").
Qed.

Lemma prefix_append (s t : string) : String.prefix s (s +:+ t) = true.
Proof.
  induction s as [|x s IH]; [by destruct t|].
  change (String x s +:+ t) with (String x (s +:+ t)).
  cbn [String.prefix]. destruct (ascii_dec x x); [exact IH|congruence].
Qed.

(** X21.  The shape every identifier has, whatever the clock and the
    random source give: it begins with [STU-], it has between five and
    twelve characters, none of them a lower-case letter; and making it
    takes one reading of the clock and one random value. *)
Theorem makeUID_shape (w : World) :
  String.prefix "STU-" (makeUID w).1 = true
  /\ (5 <= String.length (makeUID w).1 <= 12)%nat
  /\ (forall c, In c (list_ascii_of_string (makeUID w).1) -> ~ lower_case c)
  /\ (forall n, clock (makeUID w).2 n = clock w (S n)
                /\ entropy (makeUID w).2 n = entropy w (S n)).
Proof.
  split; [rewrite makeUID_form, ?append_assoc; apply prefix_append|]. split.
  { rewrite makeUID_length.
    pose proof (toString_nonempty 36 (clock w 0%nat)) as Hone.
    revert Hone. generalize (String.length (Js.toString 36 (clock w 0%nat))).
    generalize (String.length (entropy w 0%nat)). intros a b Hone. lia. }
  split; [|intros n; split; reflexivity].
  intros c Hin. rewrite makeUID_form in Hin.
  apply in_append in Hin as [Hin|Hin].
  - unfold lower_case. cbn in Hin.
    destruct Hin as [<-|[<-|[<-|[<-|[]]]]]; vm_compute; lia.
  - apply in_append in Hin as [Hin|Hin]; by apply in_slice_upper in Hin.
Qed.

End IdentifierShape.
